(** * The Fireworks completion provider: prompt assembly and request dispatch

    A shallow embedding of the Fireworks autocomplete provider
    ([FireworksProvider], [createProviderConfig],
    [getSuffixAfterFirstNewline] and the constants around them).

    Conventions of the embedding:
    - a JavaScript string is a [string]; every character stands for one
      UTF-16 code unit, and every string operation the provider uses
      (concatenation, [length], [indexOf], [slice], [split], [join],
      [startsWith], [endsWith]) works code unit by code unit;
    - a JavaScript number that holds a count or a duration is a [Z];
      the sampling temperature is a rational;
    - [undefined] and [null] are [None];
    - the calls the provider makes to its collaborators (the caller's
      callbacks, the tracer, the logger, the fetch pipeline) are recorded
      in a log, in the order in which they happen. *)

From Stdlib Require Import String Ascii List ZArith QArith Bool Lia.
Import ListNotations.

Open Scope string_scope.
Open Scope Z_scope.

(** ** JavaScript string primitives *)

(** The line feed and carriage return characters, and the one-character
    strings that hold them. *)
Definition lf : ascii := ascii_of_nat 10.
Definition cr : ascii := ascii_of_nat 13.

Definition LF : string := String lf EmptyString.
Definition CR : string := String cr EmptyString.

Module JS.

(** [s.length] *)
Definition length (s : string) : Z := Z.of_nat (String.length s).

(** [s.indexOf(pat)]: the position of the first occurrence, [-1] when
    there is none. *)
Definition indexOf (s pat : string) : Z :=
  match String.index 0 pat s with
  | Some i => Z.of_nat i
  | None => -1
  end.

(** [s.slice(start)]: a negative start counts from the end, and the start
    is clamped to the string. *)
Definition slice (s : string) (start : Z) : string :=
  let len := length s in
  let from := if start <? 0 then Z.max (len + start) 0 else Z.min start len in
  String.substring (Z.to_nat from) (Z.to_nat (len - from)) s.

(** [s.startsWith(p)] *)
Definition startsWith (s p : string) : bool := String.prefix p s.

(** [s.endsWith(p)] *)
Definition endsWith (s p : string) : bool :=
  (String.length p <=? String.length s)%nat &&
  String.eqb
    (String.substring (String.length s - String.length p) (String.length p) s)
    p.

(** [s.split('\n')]: the pieces between line feeds; the empty string
    splits into one empty piece. *)
Fixpoint split_lf (s : string) : list string :=
  match s with
  | EmptyString => [EmptyString]
  | String c rest =>
      if Ascii.eqb c lf then EmptyString :: split_lf rest
      else
        match split_lf rest with
        | piece :: pieces => String c piece :: pieces
        | [] => [String c EmptyString]
        end
  end.

(** [l.join(sep)] *)
Definition join (sep : string) (l : list string) : string :=
  String.concat sep l.

(** White space and line terminators among the code units below 256. *)
Definition isWhiteSpace (c : ascii) : bool :=
  let k := nat_of_ascii c in
  ((9 <=? k) && (k <=? 13) || (k =? 32) || (k =? 160))%nat.

(** [s.trimEnd()] *)
Fixpoint trimEnd (s : string) : string :=
  match s with
  | EmptyString => EmptyString
  | String c rest =>
      match trimEnd rest with
      | EmptyString => if isWhiteSpace c then EmptyString else String c EmptyString
      | rest' => String c rest'
      end
  end.

(** Truthiness of an optional number: [undefined] and [0] are falsy. *)
Definition truthy (x : option Z) : bool :=
  match x with
  | Some v => negb (v =? 0)
  | None => false
  end.

End JS.

(** ** Suffix truncation *)

(** The same-line rest of the suffix is removed from a completion request:
    the suffix is kept from its first line feed on, and is empty when there
    is no next line. *)
Definition getSuffixAfterFirstNewline (suffix : string) : string :=
  let firstNlInSuffix := JS.indexOf suffix LF in
  if firstNlInSuffix =? -1 then ""
  else JS.slice suffix (JS.indexOf suffix LF).

(** A string without a line feed. *)
Definition noLineBreak (s : string) : Prop :=
  forall i, String.get i s <> Some lf.

(** ** Data model *)

(** A piece of context for the prompt: a file snippet has a file name and a
    content, a symbol snippet has a symbol as well ([symbol] is [None] when
    the property is absent). *)
Module ContextSnippet.
Record t := { fileName : string; content : string; symbol : option string }.
End ContextSnippet.

Module TextDocument.
Record t := { fileName : string; languageId : string }.
End TextDocument.

Module DocumentContext.
Record t := { prefix : string; suffix : string }.
End DocumentContext.

(** The options of one completion request.  The two optional flags are
    [false] when they are absent. *)
Module ProviderOptions.
Record t := {
  docContext : DocumentContext.t;
  document : TextDocument.t;
  multiline : bool;
  n : nat;
  dynamicMultilineCompletions : bool;
  hotStreak : bool
}.
End ProviderOptions.

Module AutocompleteTimeouts.
Record t := { multiline : option Z; singleline : option Z }.
End AutocompleteTimeouts.

Module LanguageConfig.
Record t := { commentStart : string }.
End LanguageConfig.

Module PrefixComponents.
Record t := { trimmed : string; raw : string }.
End PrefixComponents.

Module HeadAndTail.
Record t := { head : PrefixComponents.t; tail : PrefixComponents.t }.
End HeadAndTail.

Inductive Speaker := human | assistant.

Module Message.
Record t := { speaker : Speaker; text : string }.
End Message.

(** The three request parameters that a preset fixes. *)
Module CompletionArgs.
Record t := {
  timeoutMs : Z;
  maxTokensToSample : Z;
  stopSequences : option (list string)
}.
End CompletionArgs.

Module CodeCompletionsParams.
Record t := {
  timeoutMs : Z;
  maxTokensToSample : Z;
  stopSequences : option (list string);
  messages : list Message.t;
  temperature : Q;
  topK : Z;
  model : option string
}.

(** [requestParams.timeoutMs = v] *)
Definition set_timeoutMs (v : Z) (r : t) : t :=
  {| timeoutMs := v;
     maxTokensToSample := r.(maxTokensToSample);
     stopSequences := r.(stopSequences);
     messages := r.(messages);
     temperature := r.(temperature);
     topK := r.(topK);
     model := r.(model) |}.

(** [Object.assign(requestParams, args)]: the three properties of the
    preset are copied, an [undefined] one included. *)
Definition assign (r : t) (args : CompletionArgs.t) : t :=
  {| timeoutMs := args.(CompletionArgs.timeoutMs);
     maxTokensToSample := args.(CompletionArgs.maxTokensToSample);
     stopSequences := args.(CompletionArgs.stopSequences);
     messages := r.(messages);
     temperature := r.(temperature);
     topK := r.(topK);
     model := r.(model) |}.
End CodeCompletionsParams.

(** A completion item; its analytics fields play no role here. *)
Module InlineCompletionItemWithAnalytics.
Record t := { insertText : string }.
End InlineCompletionItemWithAnalytics.

(** The options of the provider.  The client handle is handed to the fetch
    pipeline as it is and is left out. *)
Module FireworksOptions.
Record t := {
  model : string;
  maxContextTokens : Z;
  timeouts : option AutocompleteTimeouts.t
}.
End FireworksOptions.

Module FireworksProvider.
Record t := {
  options : ProviderOptions.t;
  model : string;
  promptChars : Z;
  timeouts : option AutocompleteTimeouts.t
}.
End FireworksProvider.

(** The code this file imports from the rest of the extension: the
    characters-per-token conversion, the language profiles, the workspace
    path of a file, the head and tail split of a prefix, the two code tags
    and the context size hints. *)
Record Collaborators := {
  tokensToChars : Z -> Z;
  getLanguageConfig : string -> option LanguageConfig.t;
  asRelativePath : string -> string;
  getHeadAndTail : string -> HeadAndTail.t;
  OPENING_CODE_TAG : string;
  CLOSING_CODE_TAG : string;
  ContextSizeHints : Type;
  standardContextSizeHints : Z -> ContextSizeHints
}.

(** ** Constants *)

Definition PROVIDER_IDENTIFIER : string := "fireworks".

Definition MODEL_MAP : list (string * string) :=
  [ ("starcoder-16b", "fireworks/starcoder-16b");
    ("starcoder-7b", "fireworks/starcoder-7b");
    ("starcoder-3b", "fireworks/accounts/fireworks/models/starcoder-3b-w8a16");
    ("starcoder-1b", "fireworks/accounts/fireworks/models/starcoder-1b-w8a16");
    ("llama-code-7b", "fireworks/accounts/fireworks/models/llama-v2-7b-code");
    ("llama-code-13b", "fireworks/accounts/fireworks/models/llama-v2-13b-code");
    ("llama-code-13b-instruct",
     "fireworks/accounts/fireworks/models/llama-v2-13b-code-instruct");
    ("mistral-7b-instruct-4k",
     "fireworks/accounts/fireworks/models/mistral-7b-instruct-4k") ].

(** [MODEL_MAP[key]] *)
Fixpoint lookup (key : string) (table : list (string * string)) : option string :=
  match table with
  | [] => None
  | (k, v) :: rest => if String.eqb key k then Some v else lookup key rest
  end.

(** [Object.prototype.hasOwnProperty.call(MODEL_MAP, key)] *)
Definition hasOwnProperty (table : list (string * string)) (key : string) : bool :=
  existsb (fun entry => String.eqb key (fst entry)) table.

Definition getMaxContextTokens (model : string) : Z :=
  if existsb (String.eqb model)
       ["starcoder-hybrid"; "starcoder-16b"; "starcoder-7b"; "starcoder-3b";
        "starcoder-1b"]
  then 2048
  else if existsb (String.eqb model)
            ["llama-code-7b"; "llama-code-13b"; "llama-code-13b-instruct"]
  then 2048
  else if String.eqb model "mistral-7b-instruct-4k" then 2048
  else 1200.

Definition MAX_RESPONSE_TOKENS : Z := 256.

Definition SINGLE_LINE_COMPLETION_ARGS : CompletionArgs.t :=
  {| CompletionArgs.timeoutMs := 5000;
     CompletionArgs.maxTokensToSample := 30;
     CompletionArgs.stopSequences := Some [LF] |}.

Definition MULTI_LINE_COMPLETION_ARGS : CompletionArgs.t :=
  {| CompletionArgs.timeoutMs := 15000;
     CompletionArgs.maxTokensToSample := MAX_RESPONSE_TOKENS;
     CompletionArgs.stopSequences := Some [LF ++ LF; LF ++ CR ++ LF] |}.

Definition DYNAMIC_MULTLILINE_COMPLETIONS_ARGS : CompletionArgs.t :=
  {| CompletionArgs.timeoutMs := 15000;
     CompletionArgs.maxTokensToSample := MAX_RESPONSE_TOKENS;
     CompletionArgs.stopSequences := None |}.

Definition isStarCoderFamily (model : string) : bool :=
  JS.startsWith model "starcoder".

Definition isLlamaCode (model : string) : bool :=
  JS.startsWith model "llama-code".

(** ** The provider *)

(** What a call of the provider does to its collaborators. *)
Inductive FetchImpl :=
| fetchAndProcessCompletions
| fetchAndProcessDynamicMultilineCompletions.

Inductive Call :=
| onCompletionReady (completions : list InlineCompletionItemWithAnalytics.t)
| tracer_params (requestParams : CodeCompletionsParams.t)
| tracer_result (completions : list InlineCompletionItemWithAnalytics.t)
| completionPostProcessLogger_flush
| fetch (impl : FetchImpl) (requestParams : CodeCompletionsParams.t).

(** [generateCompletions] either returns before it fetches anything, or
    starts its fetches and waits for them. *)
Inductive Progress := Returned | Awaiting.

(** The result of a function that may throw. *)
Inductive Result (A : Type) :=
| Ok (value : A)
| Throw (message : string).

Arguments Ok {A} value.
Arguments Throw {A} message.

Section Provider.

Variable E : Collaborators.

(** [new FireworksProvider(options, { model, maxContextTokens, client, timeouts })] *)
Definition new_FireworksProvider
    (options : ProviderOptions.t) (fireworksOptions : FireworksOptions.t)
  : FireworksProvider.t :=
  {| FireworksProvider.options := options;
     FireworksProvider.timeouts := fireworksOptions.(FireworksOptions.timeouts);
     FireworksProvider.model := fireworksOptions.(FireworksOptions.model);
     FireworksProvider.promptChars :=
       tokensToChars E
         (fireworksOptions.(FireworksOptions.maxContextTokens)
          - MAX_RESPONSE_TOKENS) |}.

Variable this : FireworksProvider.t.

Definition fileName : string :=
  this.(FireworksProvider.options).(ProviderOptions.document)
      .(TextDocument.fileName).

Definition languageId : string :=
  this.(FireworksProvider.options).(ProviderOptions.document)
      .(TextDocument.languageId).

Definition docPrefix : string :=
  this.(FireworksProvider.options).(ProviderOptions.docContext)
      .(DocumentContext.prefix).

Definition docSuffix : string :=
  this.(FireworksProvider.options).(ProviderOptions.docContext)
      .(DocumentContext.suffix).

(** The model-specific infilling format.  The diagnostic that the last
    case writes to the console is not recorded. *)
Definition createInfillingPrompt (filename intro prefix suffix : string)
  : string :=
  if isStarCoderFamily this.(FireworksProvider.model) then
    "<filename>" ++ filename ++ "<fim_prefix>" ++ intro ++ prefix
      ++ "<fim_suffix>" ++ suffix ++ "<fim_middle>"
  else if isLlamaCode this.(FireworksProvider.model) then
    "<PRE> " ++ intro ++ prefix ++ " <SUF>" ++ suffix ++ " <MID>"
  else if String.eqb this.(FireworksProvider.model) "mistral-7b-instruct-4k"
  then
    let relativeFilePath := asRelativePath E fileName in
    let headAndTail := getHeadAndTail E docPrefix in
    let head := headAndTail.(HeadAndTail.head) in
    let tail := headAndTail.(HeadAndTail.tail) in
    let infillSuffix := docSuffix in
    let infillBlock :=
      if JS.endsWith tail.(PrefixComponents.trimmed) ("{" ++ LF)
      then JS.trimEnd tail.(PrefixComponents.trimmed)
      else tail.(PrefixComponents.trimmed) in
    let infillPrefix := head.(PrefixComponents.raw) in
    "<s>[INST] Below is the code from file path " ++ relativeFilePath
      ++ ". Review the code outside the XML tags to detect the "
      ++ "functionality, formats, style, patterns, and logics in use. "
      ++ "Then, use what you detect and reuse methods/libraries to "
      ++ "complete and enclose completed code only inside XML tags "
      ++ "precisely without duplicating existing implementations. "
      ++ "Here is the code:" ++ LF
      ++ "```" ++ LF
      ++ intro ++ infillPrefix ++ OPENING_CODE_TAG E ++ CLOSING_CODE_TAG E
      ++ infillSuffix ++ LF
      ++ "```[/INST]" ++ LF
      ++ " " ++ OPENING_CODE_TAG E ++ infillBlock
  else
    intro ++ prefix.

(** The block that a snippet adds to the intro. *)
Definition snippetIntro (snippet : ContextSnippet.t) : string :=
  match snippet.(ContextSnippet.symbol) with
  | Some symbol =>
      if negb (String.eqb symbol "") then
        "Additional documentation for `" ++ symbol ++ "`:" ++ LF ++ LF
          ++ snippet.(ContextSnippet.content)
      else
        "Here is a reference snippet of code from "
          ++ snippet.(ContextSnippet.fileName) ++ ":" ++ LF ++ LF
          ++ snippet.(ContextSnippet.content)
  | None =>
      "Here is a reference snippet of code from "
        ++ snippet.(ContextSnippet.fileName) ++ ":" ++ LF ++ LF
        ++ snippet.(ContextSnippet.content)
  end.

(** [line => (languageConfig ? languageConfig.commentStart + line : '// ')] *)
Definition commentLine (languageConfig : option LanguageConfig.t)
    (line : string) : string :=
  match languageConfig with
  | Some config => config.(LanguageConfig.commentStart) ++ line
  | None => "// "
  end.

Definition introString (languageConfig : option LanguageConfig.t)
    (intro : list string) : string :=
  JS.join LF
    (map (commentLine languageConfig)
       (JS.split_lf (JS.join (LF ++ LF) intro)))
  ++ LF.

(** The candidate prompt for an intro. *)
Definition nextPrompt (intro : list string) : string :=
  let languageConfig := getLanguageConfig E languageId in
  let suffixAfterFirstNewline := getSuffixAfterFirstNewline docSuffix in
  createInfillingPrompt
    (asRelativePath E fileName)
    (introString languageConfig intro)
    docPrefix
    suffixAfterFirstNewline.

(** The intro before the loop: the path of the file, unless the model is
    of the StarCoder family. *)
Definition initialIntro : list string :=
  if negb (isStarCoderFamily this.(FireworksProvider.model))
  then ["Path: " ++ fileName]
  else [].

(** The loop of [createPrompt].  The first iteration adds no snippet and
    every later one adds the next snippet, so the iterations are
    [None :: map Some snippets]; [intro] and [prompt] are the two
    variables that the loop updates. *)
Fixpoint createPrompt_loop (iterations : list (option ContextSnippet.t))
    (intro : list string) (prompt : string) : string :=
  match iterations with
  | [] => prompt
  | iteration :: iterations' =>
      let intro :=
        match iteration with
        | Some snippet => (intro ++ [snippetIntro snippet])%list
        | None => intro
        end in
      let nextPrompt := nextPrompt intro in
      if JS.length nextPrompt >=? this.(FireworksProvider.promptChars)
      then prompt
      else createPrompt_loop iterations' intro nextPrompt
  end.

Definition createPrompt (snippets : list ContextSnippet.t) : string :=
  createPrompt_loop (None :: map Some snippets) initialIntro "".

(** [this.timeouts?.multiline] and [this.timeouts?.singleline] *)
Definition timeouts_multiline : option Z :=
  match this.(FireworksProvider.timeouts) with
  | Some timeouts => timeouts.(AutocompleteTimeouts.multiline)
  | None => None
  end.

Definition timeouts_singleline : option Z :=
  match this.(FireworksProvider.timeouts) with
  | Some timeouts => timeouts.(AutocompleteTimeouts.singleline)
  | None => None
  end.

Definition useExtendedGeneration : bool :=
  let options := this.(FireworksProvider.options) in
  options.(ProviderOptions.multiline)
  || options.(ProviderOptions.dynamicMultilineCompletions)
  || options.(ProviderOptions.hotStreak).

(** The request parameters when the timeout is tested: the preset of the
    mode, the prompt, the sampling parameters and the model, then the
    custom timeouts. *)
Definition resolvedRequestParams (snippets : list ContextSnippet.t)
  : CodeCompletionsParams.t :=
  let multiline := this.(FireworksProvider.options).(ProviderOptions.multiline) in
  let prompt := createPrompt snippets in
  let model :=
    if String.eqb this.(FireworksProvider.model) "starcoder-hybrid"
    then lookup (if multiline then "starcoder-16b" else "starcoder-7b") MODEL_MAP
    else lookup this.(FireworksProvider.model) MODEL_MAP in
  let args :=
    if useExtendedGeneration then MULTI_LINE_COMPLETION_ARGS
    else SINGLE_LINE_COMPLETION_ARGS in
  let requestParams :=
    {| CodeCompletionsParams.timeoutMs := args.(CompletionArgs.timeoutMs);
       CodeCompletionsParams.maxTokensToSample :=
         args.(CompletionArgs.maxTokensToSample);
       CodeCompletionsParams.stopSequences := args.(CompletionArgs.stopSequences);
       CodeCompletionsParams.messages :=
         [ {| Message.speaker := human; Message.text := prompt |} ];
       CodeCompletionsParams.temperature := 0.2%Q;
       CodeCompletionsParams.topK := 0;
       CodeCompletionsParams.model := model |} in
  let requestParams :=
    match timeouts_multiline with
    | Some multilineTimeout =>
        if JS.truthy (Some multilineTimeout) && useExtendedGeneration
        then CodeCompletionsParams.set_timeoutMs multilineTimeout requestParams
        else requestParams
    | None => requestParams
    end in
  let requestParams :=
    match timeouts_singleline with
    | Some singlelineTimeout =>
        if JS.truthy (Some singlelineTimeout) && negb useExtendedGeneration
        then CodeCompletionsParams.set_timeoutMs singlelineTimeout requestParams
        else requestParams
    | None => requestParams
    end in
  requestParams.

(** [generateCompletions] up to the point where it returns or starts to
    wait for its fetches.  The abort signal, the client, the
    post-processing function and the hot streak callback are handed to
    the fetch pipeline as they are and are not recorded; [tracer] tells
    whether a tracer is attached. *)
Definition generateCompletions (snippets : list ContextSnippet.t)
    (tracer : bool) : list Call * Progress :=
  let n := this.(FireworksProvider.options).(ProviderOptions.n) in
  let dynamicMultilineCompletions :=
    this.(FireworksProvider.options)
        .(ProviderOptions.dynamicMultilineCompletions) in
  let requestParams := resolvedRequestParams snippets in
  if requestParams.(CodeCompletionsParams.timeoutMs) =? 0 then
    ([onCompletionReady []], Returned)
  else
    let fetchAndProcessCompletionsImpl := fetchAndProcessCompletions in
    let '(requestParams, fetchAndProcessCompletionsImpl) :=
      if dynamicMultilineCompletions then
        (CodeCompletionsParams.assign requestParams
           DYNAMIC_MULTLILINE_COMPLETIONS_ARGS,
         fetchAndProcessDynamicMultilineCompletions)
      else (requestParams, fetchAndProcessCompletionsImpl) in
    (((if tracer then [tracer_params requestParams] else [])
        ++ repeat (fetch fetchAndProcessCompletionsImpl requestParams) n)%list,
     Awaiting).

(** [onCompletionReadyImpl]: the callback that every fetch gets.
    [completions] is the array that all the fetches of one call share;
    the function returns the array after the push and the calls it
    makes.  The tracer and the caller get the array itself; the log
    holds its content at the time of the call. *)
Definition onCompletionReadyImpl (tracer : bool)
    (completions : list InlineCompletionItemWithAnalytics.t)
    (completion : InlineCompletionItemWithAnalytics.t)
  : list InlineCompletionItemWithAnalytics.t * list Call :=
  let n := this.(FireworksProvider.options).(ProviderOptions.n) in
  let completions := (completions ++ [completion])%list in
  if (List.length completions =? n)%nat then
    (completions,
     ([completionPostProcessLogger_flush]
        ++ (if tracer then [tracer_result completions] else [])
        ++ [onCompletionReady completions])%list)
  else (completions, []).

(** The calls made while the fetches run: [arrivals] are the completions
    that the fetches hand to [onCompletionReadyImpl], in the order in
    which they arrive. *)
Fixpoint deliver (tracer : bool)
    (completions : list InlineCompletionItemWithAnalytics.t)
    (arrivals : list InlineCompletionItemWithAnalytics.t) : list Call :=
  match arrivals with
  | [] => []
  | completion :: arrivals' =>
      let '(completions, calls) :=
        onCompletionReadyImpl tracer completions completion in
      (calls ++ deliver tracer completions arrivals')%list
  end.

(** All the calls of one invocation of [generateCompletions] whose
    fetches deliver [arrivals]. *)
Definition generateCompletions_log (snippets : list ContextSnippet.t)
    (tracer : bool) (arrivals : list InlineCompletionItemWithAnalytics.t)
  : list Call :=
  match generateCompletions snippets tracer with
  | (calls, Returned) => calls
  | (calls, Awaiting) => (calls ++ deliver tracer [] arrivals)%list
  end.

End Provider.

(** ** The provider configuration *)

Module ProviderConfig.
Record t (E : Collaborators) := {
  create : ProviderOptions.t -> FireworksProvider.t;
  contextSizeHints : ContextSizeHints E;
  identifier : string;
  model : string
}.
Arguments create {E} _ _.
Arguments contextSizeHints {E} _.
Arguments identifier {E} _.
Arguments model {E} _.
End ProviderConfig.

(** [model === null] and [model === s] for a model that may be [null] *)
Definition isNull (model : option string) : bool :=
  match model with
  | Some _ => false
  | None => true
  end.

Definition strictEq (model : option string) (s : string) : bool :=
  match model with
  | Some m => String.eqb m s
  | None => false
  end.

(** The text of a model that may be [null] inside a template. *)
Definition toString (model : option string) : string :=
  match model with
  | Some m => m
  | None => "null"
  end.

Definition createProviderConfig (E : Collaborators)
    (model : option string) (timeouts : option AutocompleteTimeouts.t)
  : Result (ProviderConfig.t E) :=
  let resolvedModel :=
    if isNull model || strictEq model "" then Some "starcoder-hybrid"
    else if strictEq model "starcoder-hybrid" then Some "starcoder-hybrid"
    else if hasOwnProperty MODEL_MAP (toString model) then model
    else None in
  match resolvedModel with
  | None => Throw ("Unknown model: `" ++ toString model ++ "`")
  | Some resolvedModel =>
      let maxContextTokens := getMaxContextTokens resolvedModel in
      Ok {| ProviderConfig.create := fun options =>
              new_FireworksProvider E options
                {| FireworksOptions.model := resolvedModel;
                   FireworksOptions.maxContextTokens := maxContextTokens;
                   FireworksOptions.timeouts := timeouts |};
            ProviderConfig.contextSizeHints :=
              standardContextSizeHints E maxContextTokens;
            ProviderConfig.identifier := PROVIDER_IDENTIFIER;
            ProviderConfig.model := resolvedModel |}
  end.

(** ** Notions used to state the properties *)

(** The candidate prompt that includes the first [k] snippets. *)
Definition candidate (E : Collaborators) (this : FireworksProvider.t)
    (snippets : list ContextSnippet.t) (k : nat) : string :=
  nextPrompt E this
    (initialIntro this ++ map snippetIntro (firstn k snippets))%list.

(** The lists with which a log calls the caller's [onCompletionReady]. *)
Fixpoint readyCalls (log : list Call)
  : list (list InlineCompletionItemWithAnalytics.t) :=
  match log with
  | [] => []
  | onCompletionReady completions :: log' => completions :: readyCalls log'
  | _ :: log' => readyCalls log'
  end.

(** The requests that a log hands to the fetch pipeline. *)
Fixpoint fetchCalls (log : list Call) : list CodeCompletionsParams.t :=
  match log with
  | [] => []
  | fetch _ requestParams :: log' => requestParams :: fetchCalls log'
  | _ :: log' => fetchCalls log'
  end.

(** The provider with other custom timeouts. *)
Definition withTimeouts (this : FireworksProvider.t)
    (timeouts : option AutocompleteTimeouts.t) : FireworksProvider.t :=
  {| FireworksProvider.options := this.(FireworksProvider.options);
     FireworksProvider.model := this.(FireworksProvider.model);
     FireworksProvider.promptChars := this.(FireworksProvider.promptChars);
     FireworksProvider.timeouts := timeouts |}.

(** ** Sample collaborators and requests

    Concrete values at which the definitions above are evaluated. *)

Module Sample.

Definition collaborators : Collaborators :=
  {| tokensToChars := fun tokens => tokens * 4;
     getLanguageConfig := fun languageId =>
       if String.eqb languageId "typescript"
       then Some {| LanguageConfig.commentStart := "// " |}
       else if String.eqb languageId "python"
       then Some {| LanguageConfig.commentStart := "# " |}
       else None;
     asRelativePath := fun path => path;
     getHeadAndTail := fun prefix =>
       {| HeadAndTail.head :=
            {| PrefixComponents.trimmed := ""; PrefixComponents.raw := "" |};
          HeadAndTail.tail :=
            {| PrefixComponents.trimmed := prefix;
               PrefixComponents.raw := prefix |} |};
     OPENING_CODE_TAG := "<CODE5711>";
     CLOSING_CODE_TAG := "</CODE5711>";
     ContextSizeHints := Z;
     standardContextSizeHints := fun maxContextTokens => maxContextTokens |}.

Definition options (languageId prefix suffix : string)
    (multiline dynamicMultilineCompletions hotStreak : bool) (n : nat)
  : ProviderOptions.t :=
  {| ProviderOptions.docContext :=
       {| DocumentContext.prefix := prefix; DocumentContext.suffix := suffix |};
     ProviderOptions.document :=
       {| TextDocument.fileName := "src/a.ts";
          TextDocument.languageId := languageId |};
     ProviderOptions.multiline := multiline;
     ProviderOptions.n := n;
     ProviderOptions.dynamicMultilineCompletions := dynamicMultilineCompletions;
     ProviderOptions.hotStreak := hotStreak |}.

Definition provider (model : string) (maxContextTokens : Z)
    (timeouts : option AutocompleteTimeouts.t) (options : ProviderOptions.t)
  : FireworksProvider.t :=
  new_FireworksProvider collaborators options
    {| FireworksOptions.model := model;
       FireworksOptions.maxContextTokens := maxContextTokens;
       FireworksOptions.timeouts := timeouts |}.

Definition timeouts (multiline singleline : option Z)
  : option AutocompleteTimeouts.t :=
  Some {| AutocompleteTimeouts.multiline := multiline;
          AutocompleteTimeouts.singleline := singleline |}.

Definition snippet : ContextSnippet.t :=
  {| ContextSnippet.fileName := "src/b.ts";
     ContextSnippet.content := "const b = 1";
     ContextSnippet.symbol := None |}.

Definition item (insertText : string) : InlineCompletionItemWithAnalytics.t :=
  {| InlineCompletionItemWithAnalytics.insertText := insertText |}.

(** A string of [k] copies of the letter x. *)
Fixpoint filler (k : nat) : string :=
  match k with
  | O => ""
  | S k' => String "x" (filler k')
  end.

(** A request whose prefix alone fills the budget of 7168 characters,
    and one that leaves room for a snippet. *)
Definition overBudget : FireworksProvider.t :=
  provider "starcoder-hybrid" 2048 None
    (options "typescript" (filler (7 * 1024)) "" false false false 1).

Definition withinBudget : FireworksProvider.t :=
  provider "starcoder-hybrid" 2048 None
    (options "typescript" "let a = " "" false false false 1).

(** A Llama Code request for Python with one snippet. *)
Definition llamaPython : FireworksProvider.t :=
  provider "llama-code-7b" 2048 None
    (options "python" "let a = " "" true false false 1).

(** A Llama Code request for a language without a profile. *)
Definition llamaNoProfile : FireworksProvider.t :=
  provider "llama-code-7b" 2048 None
    (options "plaintext" "let a = " "" false false false 1).

(** A request for two samples. *)
Definition twoSamples : FireworksProvider.t :=
  provider "starcoder-hybrid" 2048 None
    (options "typescript" "let a = " "" false false false 2).

(** A multiline request with a custom multiline timeout of zero. *)
Definition zeroMultilineTimeout : FireworksProvider.t :=
  provider "starcoder-hybrid" 2048 (timeouts (Some 0) None)
    (options "typescript" "let a = " "" true false false 1).

(** A multiline request with a custom multiline timeout of 3000 ms. *)
Definition multilineTimeout : FireworksProvider.t :=
  provider "starcoder-hybrid" 2048 (timeouts (Some 3000) None)
    (options "typescript" "let a = " "" true false false 1).

(** A single-line request with a custom single-line timeout of 900 ms. *)
Definition singlelineTimeout : FireworksProvider.t :=
  provider "starcoder-hybrid" 2048 (timeouts None (Some 900))
    (options "typescript" "let a = " "" false false false 1).

(** A dynamic multiline request with a custom multiline timeout of
    3000 ms. *)
Definition dynamicMultilineTimeout : FireworksProvider.t :=
  provider "starcoder-hybrid" 2048 (timeouts (Some 3000) None)
    (options "typescript" "let a = " "" false true false 1).

End Sample.

(** ** The second half of [generateCompletions]

    [generateCompletions] from the test of the timeout on, for the request
    parameters that its first half has resolved: the early return, the
    dynamic multiline mode, the tracer and the fetches. *)
Definition generateCompletions_from (this : FireworksProvider.t) (tracer : bool)
    (requestParams : CodeCompletionsParams.t) : list Call * Progress :=
  let n := this.(FireworksProvider.options).(ProviderOptions.n) in
  let dynamicMultilineCompletions :=
    this.(FireworksProvider.options)
        .(ProviderOptions.dynamicMultilineCompletions) in
  if requestParams.(CodeCompletionsParams.timeoutMs) =? 0 then
    ([onCompletionReady []], Returned)
  else
    let fetchAndProcessCompletionsImpl := fetchAndProcessCompletions in
    let '(requestParams, fetchAndProcessCompletionsImpl) :=
      if dynamicMultilineCompletions then
        (CodeCompletionsParams.assign requestParams
           DYNAMIC_MULTLILINE_COMPLETIONS_ARGS,
         fetchAndProcessDynamicMultilineCompletions)
      else (requestParams, fetchAndProcessCompletionsImpl) in
    (((if tracer then [tracer_params requestParams] else [])
        ++ repeat (fetch fetchAndProcessCompletionsImpl requestParams) n)%list,
     Awaiting).

(** All the calls of an invocation from the test of the timeout on. *)
Definition generateCompletions_log_from (this : FireworksProvider.t)
    (tracer : bool) (requestParams : CodeCompletionsParams.t)
    (arrivals : list InlineCompletionItemWithAnalytics.t) : list Call :=
  match generateCompletions_from this tracer requestParams with
  | (calls, Returned) => calls
  | (calls, Awaiting) => (calls ++ deliver this tracer [] arrivals)%list
  end.

(** ** Post-processing of the model output *)

Definition EOT_STARCODER : string := "<|endoftext|>".
Definition EOT_LLAMA_CODE : string := " <EOT>".

Module JSString.

(** [s.replace(pattern, replacement)] for a pattern that is a string and a
    replacement without a dollar sign: the first occurrence of the pattern
    is replaced, and a string without the pattern is returned as it is. *)
Definition replace (s pattern replacement : string) : string :=
  match String.index 0 pattern s with
  | Some i =>
      String.substring 0 i s ++ replacement
        ++ String.substring (i + String.length pattern)
             (String.length s - (i + String.length pattern)) s
  | None => s
  end.

(** [s.includes(p)] *)
Definition includes (s p : string) : bool :=
  match String.index 0 p s with
  | Some _ => true
  | None => false
  end.

(** [s.slice(start, end)]: a negative position counts from the end, both
    positions are clamped to the string, and the result is empty when the
    end is not after the start. *)
Definition slice2 (s : string) (start stop : Z) : string :=
  let len := JS.length s in
  let from := if start <? 0 then Z.max (len + start) 0 else Z.min start len in
  let to := if stop <? 0 then Z.max (len + stop) 0 else Z.min stop len in
  String.substring (Z.to_nat from) (Z.to_nat (Z.max (to - from) 0)) s.

(** [s.trimStart()] and [s.trim()] *)
Fixpoint trimStart (s : string) : string :=
  match s with
  | EmptyString => EmptyString
  | String c rest => if JS.isWhiteSpace c then trimStart rest else s
  end.

Definition trim (s : string) : string := trimStart (JS.trimEnd s).

End JSString.

(** [this.postProcess]: the end-of-text marker of the model family is
    taken out of the raw output. *)
Definition postProcess (this : FireworksProvider.t) (content : string) : string :=
  if isStarCoderFamily this.(FireworksProvider.model) then
    JSString.replace content EOT_STARCODER ""
  else if isLlamaCode this.(FireworksProvider.model) then
    JSString.replace content EOT_LLAMA_CODE ""
  else content.

(** The pattern stands in the string at position [i]. *)
Definition occursAt (pattern s : string) (i : nat) : Prop :=
  String.substring i (String.length pattern) s = pattern.

(** ** More of the log *)

(** The pipeline entry points that a log calls. *)
Fixpoint fetchImpls (log : list Call) : list FetchImpl :=
  match log with
  | [] => []
  | fetch impl _ :: log' => impl :: fetchImpls log'
  | _ :: log' => fetchImpls log'
  end.

(** What a log tells the tracer. *)
Fixpoint tracerParamsCalls (log : list Call) : list CodeCompletionsParams.t :=
  match log with
  | [] => []
  | tracer_params requestParams :: log' => requestParams :: tracerParamsCalls log'
  | _ :: log' => tracerParamsCalls log'
  end.

Fixpoint tracerResultCalls (log : list Call)
  : list (list InlineCompletionItemWithAnalytics.t) :=
  match log with
  | [] => []
  | tracer_result completions :: log' => completions :: tracerResultCalls log'
  | _ :: log' => tracerResultCalls log'
  end.

(** The request that an invocation sends: the resolved parameters, with
    the dynamic multiline preset on top when that mode is on. *)
Definition sentRequestParams (E : Collaborators) (this : FireworksProvider.t)
    (snippets : list ContextSnippet.t) : CodeCompletionsParams.t :=
  if this.(FireworksProvider.options).(ProviderOptions.dynamicMultilineCompletions)
  then CodeCompletionsParams.assign (resolvedRequestParams E this snippets)
         DYNAMIC_MULTLILINE_COMPLETIONS_ARGS
  else resolvedRequestParams E this snippets.

(** ** The codebase context

    [createCodebaseContext] and the memoized [getRepoId] under it.  The
    Sourcegraph client resolves a repository name to an identifier, to
    [null] or to an error; [client] is what it would answer at the time of
    a call.  The cache of [memoize] is keyed by the first argument and
    holds the results of the calls made so far. *)

Inductive RepoIdResult :=
| repoIdNull
| repoIdError (message : string)
| repoIdString (id : string).

(** [isError(repoId)] *)
Definition isError (repoId : RepoIdResult) : bool :=
  match repoId with
  | repoIdError _ => true
  | _ => false
  end.

(** The truthiness of a result: [null] and the empty string are falsy. *)
Definition truthyRepoId (repoId : RepoIdResult) : bool :=
  match repoId with
  | repoIdNull => false
  | repoIdError _ => true
  | repoIdString id => negb (String.eqb id "")
  end.

Inductive UseContext :=
| useEmbeddings
| useKeyword
| useNone
| useBlended.

Module SourcegraphEmbeddingsSearchClient.
Record t := { codebase : string; repoId : RepoIdResult }.
End SourcegraphEmbeddingsSearchClient.

(** The arguments of [new CodebaseContext]; the last three are [null]. *)
Module CodebaseContext.
Record t := {
  useContext : UseContext;
  serverEndpoint : string;
  experimentalLocalSymbols : bool;
  codebase : string;
  embeddingsSearch : option SourcegraphEmbeddingsSearchClient.t
}.
End CodebaseContext.

Inductive Effect :=
| sourcegraphClient_getRepoId (codebase : string)
| console_error (message : string).

Definition RepoIdCache : Type := list (string * RepoIdResult).

(** [cache.get(key)] *)
Fixpoint cacheGet (cache : RepoIdCache) (key : string) : option RepoIdResult :=
  match cache with
  | [] => None
  | (k, v) :: rest => if String.eqb key k then Some v else cacheGet rest key
  end.

(** The function that [getRepoId] memoizes. *)
Definition getRepoId_uncached (client : string -> RepoIdResult)
    (codebase : string) : RepoIdResult * list Effect :=
  let '(repoId, asked) :=
    if negb (String.eqb codebase "")
    then (client codebase, [sourcegraphClient_getRepoId codebase])
    else (repoIdNull, []) in
  if isError repoId then
    let errorMessage :=
      "Cody could not find the '" ++ codebase
        ++ "' repository on your Sourcegraph instance." ++ LF
        ++ "Please check that the repository exists and is entered "
        ++ "correctly in the cody.codebase setting." in
    (repoId, (asked ++ [console_error errorMessage])%list)
  else (repoId, asked).

(** [getRepoId(codebase)]: a result in the cache is returned as it is;
    otherwise the function runs and its result is stored. *)
Definition getRepoId (cache : RepoIdCache) (client : string -> RepoIdResult)
    (codebase : string) : RepoIdCache * RepoIdResult * list Effect :=
  match cacheGet cache codebase with
  | Some repoId => (cache, repoId, [])
  | None =>
      let '(repoId, effects) := getRepoId_uncached client codebase in
      ((codebase, repoId) :: cache, repoId, effects)
  end.

Definition createCodebaseContext (cache : RepoIdCache)
    (client : string -> RepoIdResult) (codebase : string)
    (contextType : UseContext) (serverEndpoint : string)
  : RepoIdCache * CodebaseContext.t * list Effect :=
  let '(cache, repoId, effects) := getRepoId cache client codebase in
  let embeddingsSearch :=
    if truthyRepoId repoId && negb (isError repoId)
    then Some {| SourcegraphEmbeddingsSearchClient.codebase := codebase;
                 SourcegraphEmbeddingsSearchClient.repoId := repoId |}
    else None in
  let codebaseContext :=
    {| CodebaseContext.useContext := contextType;
       CodebaseContext.serverEndpoint := serverEndpoint;
       CodebaseContext.experimentalLocalSymbols := false;
       CodebaseContext.codebase := codebase;
       CodebaseContext.embeddingsSearch := embeddingsSearch |} in
  (cache, codebaseContext, effects).

(** One call of [createCodebaseContext], with the answers that the client
    would give at that time. *)
Module CodebaseRequest.
Record t := {
  client : string -> RepoIdResult;
  codebase : string;
  contextType : UseContext;
  serverEndpoint : string
}.
End CodebaseRequest.

(** A sequence of calls: the contexts they return and all their effects. *)
Fixpoint createCodebaseContexts (cache : RepoIdCache)
    (requests : list CodebaseRequest.t)
  : RepoIdCache * list CodebaseContext.t * list Effect :=
  match requests with
  | [] => (cache, [], [])
  | request :: requests' =>
      let '(cache, codebaseContext, effects) :=
        createCodebaseContext cache
          request.(CodebaseRequest.client)
          request.(CodebaseRequest.codebase)
          request.(CodebaseRequest.contextType)
          request.(CodebaseRequest.serverEndpoint) in
      let '(cache, codebaseContexts, effects') :=
        createCodebaseContexts cache requests' in
      (cache, codebaseContext :: codebaseContexts, (effects ++ effects')%list)
  end.

(** How often a log asks the client for a codebase. *)
Fixpoint clientCalls (codebase : string) (log : list Effect) : nat :=
  match log with
  | [] => O
  | sourcegraphClient_getRepoId asked :: log' =>
      ((if String.eqb asked codebase then 1 else 0) + clientCalls codebase log')%nat
  | _ :: log' => clientCalls codebase log'
  end.

(** ** The chat panel: the question of an input and the context window *)

(** [extractQuestion]: the input up to its first question mark, or the
    whole input when it has none and is shorter than 100 characters. *)
Definition extractQuestion (input : string) : option string :=
  let input := JSString.trim input in
  let q := JS.indexOf input "?" in
  if negb (q =? -1) then
    Some (JSString.trim (JSString.slice2 input 0 (q + 1)))
  else if JS.length input <? 100 then Some input
  else None.

Module ConfigOverwrites.
Record t := { chatModelMaxTokens : option Z }.
End ConfigOverwrites.

(** The two properties of the authentication status that the context
    window depends on. *)
Module AuthStatus.
Record t := {
  endpoint : option string;
  configOverwrites : option ConfigOverwrites.t
}.
End AuthStatus.

(** [authStatus.configOverwrites?.chatModelMaxTokens] *)
Definition chatModelMaxTokens (authStatus : AuthStatus.t) : option Z :=
  match authStatus.(AuthStatus.configOverwrites) with
  | Some configOverwrites =>
      configOverwrites.(ConfigOverwrites.chatModelMaxTokens)
  | None => None
  end.

(** The value of a number that is known to be truthy. *)
Definition numberOf (x : option Z) : Z :=
  match x with
  | Some v => v
  | None => 0
  end.

(** A string without a question mark. *)
Definition noQuestionMark (s : string) : Prop :=
  forall i, String.get i s <> Some "?"%char.

(** [getContextWindowForModel].  [isDotCom] is the imported test of an
    endpoint, and [tokenLimit] is the value of the setting
    [cody.provider.limit.prompt]. *)
Definition getContextWindowForModel (isDotCom : string -> bool)
    (tokenLimit : option Z) (authStatus : AuthStatus.t) (modelID : string) : Z :=
  let enterprise :=
    match authStatus.(AuthStatus.endpoint) with
    | Some endpoint => negb (String.eqb endpoint "") && negb (isDotCom endpoint)
    | None => false
    end in
  if enterprise then
    if JS.truthy tokenLimit then numberOf tokenLimit * 4
    else if JS.truthy (chatModelMaxTokens authStatus)
    then numberOf (chatModelMaxTokens authStatus) * 4
    else 28000
  else if JSString.includes modelID "openai/gpt-4-1106-preview" then 28000
  else if JS.endsWith modelID "openai/gpt-3.5-turbo" then 10000
  else if JSString.includes modelID "mixtral-8x7b-instruct"
          && JSString.includes modelID "fireworks" then 28000
  else 28000.

(** The entry of the empty codebase, if the cache has one, is [null]. *)
Definition emptyCodebaseNull (cache : RepoIdCache) : Prop :=
  forall repoId, cacheGet cache "" = Some repoId -> repoId = repoIdNull.

(** What an embeddings search of a context is, when there is one. *)
Definition searchOfFoundRepository (context : CodebaseContext.t) : Prop :=
  match context.(CodebaseContext.embeddingsSearch) with
  | None => True
  | Some search =>
      search.(SourcegraphEmbeddingsSearchClient.codebase)
      = context.(CodebaseContext.codebase)
      /\ context.(CodebaseContext.codebase) <> ""
      /\ exists id,
           search.(SourcegraphEmbeddingsSearchClient.repoId) = repoIdString id
           /\ id <> ""
  end.

(** Sample clients and calls of [createCodebaseContext]. *)
Module Scenario.

Definition clientFinds (id : string) : string -> RepoIdResult :=
  fun _ => repoIdString id.

Definition clientFails : string -> RepoIdResult :=
  fun _ => repoIdError "repository not found".

Definition request (client : string -> RepoIdResult) (codebase : string)
  : CodebaseRequest.t :=
  {| CodebaseRequest.client := client;
     CodebaseRequest.codebase := codebase;
     CodebaseRequest.contextType := useEmbeddings;
     CodebaseRequest.serverEndpoint := "https://sourcegraph.com" |}.

(** The public endpoint, and the status of a user of it and of a user of
    another instance. *)
Definition isDotCom (endpoint : string) : bool :=
  String.eqb endpoint "https://sourcegraph.com".

Definition dotComUser : AuthStatus.t :=
  {| AuthStatus.endpoint := Some "https://sourcegraph.com";
     AuthStatus.configOverwrites := None |}.

Definition enterpriseUser : AuthStatus.t :=
  {| AuthStatus.endpoint := Some "https://sourcegraph.example.org";
     AuthStatus.configOverwrites := None |}.

(** Requests whose suffix is "abc\ndef", for a StarCoder, a Llama Code and
    the Mistral instruct model. *)
Definition starcoderSuffix : FireworksProvider.t :=
  Sample.provider "starcoder-7b" 2048 None
    (Sample.options "python" "let a = " ("abc" ++ LF ++ "def") false false false 1).

Definition llamaSuffix : FireworksProvider.t :=
  Sample.provider "llama-code-13b" 2048 None
    (Sample.options "python" "let a = " ("abc" ++ LF ++ "def") false false false 1).

Definition mistralSuffix : FireworksProvider.t :=
  Sample.provider "mistral-7b-instruct-4k" 2048 None
    (Sample.options "python" "let a = " ("abc" ++ LF ++ "def") false false false 1).

(** The same request for a model without infilling format. *)
Definition otherModelSuffix : FireworksProvider.t :=
  Sample.provider "codegen-2b" 2048 None
    (Sample.options "python" "let a = " ("abc" ++ LF ++ "def") false false false 1).


End Scenario.

(** ** Facts about the string primitives *)

Lemma index_lf_cons_lf (s : string) :
  String.index 0 LF (String lf s) = Some 0%nat.
Proof.
  cbn [String.index LF String.prefix].
  destruct (ascii_dec lf lf) as [_ | ne]; [| contradiction].
  destruct s; reflexivity.
Qed.

Lemma index_lf_cons_other (c : ascii) (s : string) :
  c <> lf ->
  String.index 0 LF (String c s) = option_map S (String.index 0 LF s).
Proof.
  intros ne. cbn [String.index LF String.prefix].
  destruct (ascii_dec lf c) as [e | _]; [symmetry in e; contradiction |].
  destruct (String.index 0 LF s); reflexivity.
Qed.

Lemma noLineBreak_cons (c : ascii) (s : string) :
  noLineBreak (String c s) <-> c <> lf /\ noLineBreak s.
Proof.
  unfold noLineBreak. split.
  - intros H. split.
    + intros ->. apply (H 0%nat). reflexivity.
    + intros i. apply (H (S i)).
  - intros [ne H] [| i]; simpl.
    + congruence.
    + apply H.
Qed.

Lemma index_lf_none (s : string) :
  noLineBreak s -> String.index 0 LF s = None.
Proof.
  induction s as [| c s IH]; intros H.
  - reflexivity.
  - apply noLineBreak_cons in H as [ne H].
    rewrite index_lf_cons_other by assumption.
    rewrite IH by assumption. reflexivity.
Qed.

Lemma index_lf_first (a b : string) :
  noLineBreak a ->
  String.index 0 LF (a ++ LF ++ b) = Some (String.length a).
Proof.
  induction a as [| c a IH]; intros H.
  - apply index_lf_cons_lf.
  - apply noLineBreak_cons in H as [ne H].
    change ((String c a ++ LF ++ b)%string) with (String c (a ++ LF ++ b)).
    rewrite index_lf_cons_other by assumption.
    rewrite IH by assumption. reflexivity.
Qed.

Lemma substring_all (s : string) :
  String.substring 0 (String.length s) s = s.
Proof.
  induction s as [| c s IH]; simpl; [reflexivity | now rewrite IH].
Qed.

Lemma substring_drop_app (a b : string) :
  String.substring (String.length a) (String.length b) (a ++ b) = b.
Proof.
  induction a as [| c a IH]; simpl.
  - apply substring_all.
  - exact IH.
Qed.

Lemma string_length_app (a b : string) :
  String.length (a ++ b) = (String.length a + String.length b)%nat.
Proof.
  induction a as [| c a IH]; simpl; [reflexivity | now rewrite IH].
Qed.

Lemma slice_drop_app (a b : string) :
  JS.slice (a ++ b) (Z.of_nat (String.length a)) = b.
Proof.
  unfold JS.slice, JS.length. rewrite string_length_app.
  destruct (Z.ltb_spec (Z.of_nat (String.length a)) 0) as [neg | _]; [lia |].
  rewrite Z.min_l by lia.
  rewrite Nat2Z.id.
  replace (Z.to_nat (Z.of_nat (String.length a + String.length b)
                     - Z.of_nat (String.length a)))
    with (String.length b) by lia.
  apply substring_drop_app.
Qed.

(** Every string either has no line feed or splits at its first one. *)
Lemma first_line_break (s : string) :
  noLineBreak s \/
  exists a b, noLineBreak a /\ s = a ++ LF ++ b.
Proof.
  induction s as [| c s IH].
  - left. intros [| i]; discriminate.
  - destruct (ascii_dec c lf) as [-> | ne].
    + right. exists "", s. split; [intros [| i]; discriminate | reflexivity].
    + destruct IH as [H | (a & b & H & ->)].
      * left. apply noLineBreak_cons. auto.
      * right. exists (String c a), b. split; [| reflexivity].
        apply noLineBreak_cons. auto.
Qed.

(** What [getSuffixAfterFirstNewline] returns: the part of the suffix that
    starts at its first line break, the line break included; the empty
    string when the suffix has no line break; and "\ndef" for the suffix
    "abc\ndef". *)
Theorem getSuffixAfterFirstNewline_spec :
  (forall a b, noLineBreak a ->
     getSuffixAfterFirstNewline (a ++ LF ++ b) = LF ++ b) /\
  (forall s, noLineBreak s -> getSuffixAfterFirstNewline s = "") /\
  getSuffixAfterFirstNewline ("abc" ++ LF ++ "def") = LF ++ "def".
Proof.
  assert (first : forall a b, noLineBreak a ->
            getSuffixAfterFirstNewline (a ++ LF ++ b) = LF ++ b).
  { intros a b H. unfold getSuffixAfterFirstNewline, JS.indexOf.
    rewrite index_lf_first by assumption.
    destruct (Z.eqb_spec (Z.of_nat (String.length a)) (-1)) as [e | _]; [lia |].
    apply slice_drop_app. }
  split; [exact first | split].
  - intros s H. unfold getSuffixAfterFirstNewline, JS.indexOf.
    rewrite index_lf_none by assumption. reflexivity.
  - apply first. intros i.
    do 4 (destruct i as [| i]; [discriminate |]). discriminate.
Qed.

Lemma getSuffixAfterFirstNewline_spec_witness :
  noLineBreak "abc" /\
  getSuffixAfterFirstNewline ("abc" ++ LF ++ "def") = LF ++ "def" /\
  getSuffixAfterFirstNewline "abc" = "".
Proof.
  assert (H : noLineBreak "abc").
  { intros i. do 4 (destruct i as [| i]; [discriminate |]). discriminate. }
  split; [exact H | split].
  - exact (proj1 getSuffixAfterFirstNewline_spec "abc" "def" H).
  - exact (proj1 (proj2 getSuffixAfterFirstNewline_spec) "abc" H).
Defined.

(** ** The prompt and its budget *)

Section PromptBudget.

Variable E : Collaborators.
Variable this : FireworksProvider.t.

(** The loop returns the prompt it was given or a candidate that is
    shorter than the (FireworksProvider.promptChars this). *)
Lemma createPrompt_loop_short (iterations : list (option ContextSnippet.t)) :
  forall intro prompt,
    prompt = "" \/ JS.length prompt < (FireworksProvider.promptChars this) ->
    let result := createPrompt_loop E this iterations intro prompt in
    result = "" \/ JS.length result < (FireworksProvider.promptChars this).
Proof.
  induction iterations as [| iteration iterations IH]; intros intro prompt H.
  - exact H.
  - cbn [createPrompt_loop]. cbv zeta.
    set (intro' := match iteration with
                   | Some snippet => _
                   | None => intro
                   end).
    destruct (Z.geb_spec (JS.length (nextPrompt E this intro')) (FireworksProvider.promptChars this))
      as [long | short].
    + exact H.
    + apply IH. right. exact short.
Qed.

Lemma createPrompt_short (snippets : list ContextSnippet.t) :
  createPrompt E this snippets = ""
  \/ JS.length (createPrompt E this snippets) < (FireworksProvider.promptChars this).
Proof.
  apply createPrompt_loop_short. left. reflexivity.
Qed.

(** Once the zero-snippet candidate is accepted, the loop returns the
    candidate before the first one that does not fit. *)
Lemma createPrompt_loop_last_fit (rest : list ContextSnippet.t) :
  forall intro,
    let cand k := nextPrompt E this (intro ++ map snippetIntro (firstn k rest))%list in
    exists k, (k <= List.length rest)%nat
      /\ createPrompt_loop E this (map Some rest) intro (nextPrompt E this intro)
         = cand k
      /\ (forall j, (1 <= j <= k)%nat -> JS.length (cand j) < (FireworksProvider.promptChars this))
      /\ (k = List.length rest \/ (FireworksProvider.promptChars this) <= JS.length (cand (S k))).
Proof.
  induction rest as [| snippet rest IH]; intros intro cand.
  - exists 0%nat. subst cand. cbn. rewrite app_nil_r.
    repeat split; [lia | | now left]. intros j Hj. lia.
  - cbn [map createPrompt_loop]. cbv zeta.
    assert (step : forall k,
               cand (S k)
               = nextPrompt E this
                   ((intro ++ [snippetIntro snippet])
                      ++ map snippetIntro (firstn k rest))%list).
    { intros k. subst cand. cbn. now rewrite <- app_assoc. }
    destruct (Z.geb_spec
                (JS.length (nextPrompt E this (intro ++ [snippetIntro snippet])%list))
                (FireworksProvider.promptChars this)) as [long | short].
    + exists 0%nat. repeat split.
      * cbn. lia.
      * subst cand. cbn. now rewrite app_nil_r.
      * intros j Hj. lia.
      * right. rewrite step. cbn. now rewrite app_nil_r.
    + destruct (IH (intro ++ [snippetIntro snippet])%list)
        as (k & Hk & Hres & Hfit & Hstop).
      exists (S k). repeat split.
      * cbn. lia.
      * rewrite Hres. now rewrite step.
      * intros [| j] Hj; [lia |]. rewrite step.
        destruct j as [| j].
        -- cbn. now rewrite app_nil_r.
        -- apply Hfit. lia.
      * destruct Hstop as [-> | Hstop]; [now left | right].
        now rewrite step.
Qed.

End PromptBudget.

(** C1. For every list of context snippets and every document prefix and
    suffix, the prompt that [createPrompt] returns is not longer than the
    character budget [promptChars] of the provider, where [promptChars] is
    [tokensToChars (maxContextTokens - MAX_RESPONSE_TOKENS)] and is not
    negative. *)
Theorem createPrompt_within_budget (E : Collaborators)
    (options : ProviderOptions.t) (fireworksOptions : FireworksOptions.t)
    (snippets : list ContextSnippet.t) :
  let this := new_FireworksProvider E options fireworksOptions in
  let promptChars :=
    tokensToChars E
      (fireworksOptions.(FireworksOptions.maxContextTokens) - MAX_RESPONSE_TOKENS) in
  0 <= promptChars ->
  JS.length (createPrompt E this snippets) <= promptChars.
Proof.
  intros this promptChars nonneg.
  destruct (createPrompt_short E this snippets) as [-> | short].
  - exact nonneg.
  - change (FireworksProvider.promptChars this) with promptChars in short. lia.
Qed.

Lemma createPrompt_within_budget_witness :
  0 <= 7168
  /\ JS.length (createPrompt Sample.collaborators Sample.llamaPython [Sample.snippet])
     <= 7168.
Proof.
  split.
  - lia.
  - apply (createPrompt_within_budget Sample.collaborators
             (Sample.options "python" "let a = " "" true false false 1)
             {| FireworksOptions.model := "llama-code-7b";
                FireworksOptions.maxContextTokens := 2048;
                FireworksOptions.timeouts := None |}
             [Sample.snippet]).
    vm_compute. discriminate.
Defined.

(** The token budget of every model is at least the response budget. *)
Lemma getMaxContextTokens_response (model : string) :
  MAX_RESPONSE_TOKENS <= getMaxContextTokens model.
Proof.
  unfold getMaxContextTokens, MAX_RESPONSE_TOKENS.
  repeat match goal with |- context [if ?b then _ else _] => destruct b end; lia.
Qed.

(** The providers that a configuration creates keep their prompts within
    their budget, when the conversion of tokens to characters keeps a
    number of tokens that is not negative so. *)
Lemma created_provider_within_budget (E : Collaborators)
    (model : option string) (timeouts : option AutocompleteTimeouts.t)
    (config : ProviderConfig.t E) (options : ProviderOptions.t)
    (snippets : list ContextSnippet.t) :
  (forall tokens, 0 <= tokens -> 0 <= tokensToChars E tokens) ->
  createProviderConfig E model timeouts = Ok config ->
  let this := ProviderConfig.create config options in
  JS.length (createPrompt E this snippets) <= this.(FireworksProvider.promptChars).
Proof.
  intros conv created this.
  assert (nonneg : 0 <= this.(FireworksProvider.promptChars)).
  { subst this. unfold createProviderConfig in created.
    destruct (if isNull model || strictEq model "" then _ else _)
      as [resolved |]; [| discriminate].
    injection created as <-. cbn.
    apply conv. pose proof (getMaxContextTokens_response resolved). lia. }
  destruct (createPrompt_short E this snippets) as [-> | short].
  - exact nonneg.
  - lia.
Qed.

(** C2, as the code has it. When the candidate prompt without any snippet
    meets or exceeds the character budget, [createPrompt] returns the empty
    string; otherwise it returns the last candidate that fit: the candidate
    with the first [k] snippets, where every candidate up to [k] is shorter
    than the budget and either all the snippets are in or the candidate
    with one snippet more meets or exceeds the budget. *)
Theorem createPrompt_last_fit (E : Collaborators) (this : FireworksProvider.t)
    (snippets : list ContextSnippet.t) :
  let promptChars := this.(FireworksProvider.promptChars) in
  (promptChars <= JS.length (candidate E this snippets 0) ->
   createPrompt E this snippets = "")
  /\ (JS.length (candidate E this snippets 0) < promptChars ->
      exists k, (k <= List.length snippets)%nat
        /\ createPrompt E this snippets = candidate E this snippets k
        /\ (forall j, (j <= k)%nat ->
              JS.length (candidate E this snippets j) < promptChars)
        /\ (k = List.length snippets
            \/ promptChars <= JS.length (candidate E this snippets (S k)))).
Proof.
  intros promptChars. subst promptChars.
  assert (zero : candidate E this snippets 0 = nextPrompt E this (initialIntro this)).
  { unfold candidate. cbn. now rewrite app_nil_r. }
  unfold createPrompt. cbn [createPrompt_loop]. cbv zeta.
  rewrite zero.
  destruct (Z.geb_spec (JS.length (nextPrompt E this (initialIntro this)))
              (FireworksProvider.promptChars this)) as [long | short].
  - split; [reflexivity | lia].
  - split; [lia |]. intros _.
    destruct (createPrompt_loop_last_fit E this snippets (initialIntro this))
      as (k & Hk & Hres & Hfit & Hstop).
    exists k. repeat split; try assumption.
    intros [| j] Hj.
    + rewrite zero. exact short.
    + apply Hfit. lia.
Qed.

Lemma createPrompt_last_fit_witness :
  createPrompt Sample.collaborators Sample.overBudget [Sample.snippet] = ""
  /\ exists k, (k <= 1)%nat
       /\ createPrompt Sample.collaborators Sample.withinBudget [Sample.snippet]
          = candidate Sample.collaborators Sample.withinBudget [Sample.snippet] k
       /\ (forall j, (j <= k)%nat ->
             JS.length
               (candidate Sample.collaborators Sample.withinBudget
                  [Sample.snippet] j)
             < 7168)
       /\ (k = 1%nat
           \/ 7168 <= JS.length
                        (candidate Sample.collaborators Sample.withinBudget
                           [Sample.snippet] (S k))).
Proof.
  split.
  - apply (proj1 (createPrompt_last_fit Sample.collaborators Sample.overBudget
                    [Sample.snippet])).
    vm_compute. discriminate.
  - apply (proj2 (createPrompt_last_fit Sample.collaborators Sample.withinBudget
                    [Sample.snippet])).
    vm_compute. reflexivity.
Defined.

(** The claim of C2 fails where the candidate without snippets does not
    fit: the prefix fills the budget, and [createPrompt] returns the empty
    string, not that candidate. *)
Lemma createPrompt_zero_snippet_not_returned :
  Sample.overBudget.(FireworksProvider.promptChars)
    <= JS.length (candidate Sample.collaborators Sample.overBudget [] 0)
  /\ createPrompt Sample.collaborators Sample.overBudget [] = ""
  /\ createPrompt Sample.collaborators Sample.overBudget []
     <> candidate Sample.collaborators Sample.overBudget [] 0.
Proof.
  split; [| split].
  - vm_compute. discriminate.
  - vm_compute. reflexivity.
  - vm_compute. discriminate.
Qed.

(** ** The request parameters *)

Section Request.

Variable E : Collaborators.
Variable this : FireworksProvider.t.
Variable snippets : list ContextSnippet.t.

Lemma resolved_timeoutMs :
  (resolvedRequestParams E this snippets).(CodeCompletionsParams.timeoutMs)
  = let preset :=
      if useExtendedGeneration this then 15000 else 5000 in
    let afterMultiline :=
      match timeouts_multiline this with
      | Some v =>
          if negb (v =? 0) && useExtendedGeneration this then v else preset
      | None => preset
      end in
    match timeouts_singleline this with
    | Some v =>
        if negb (v =? 0) && negb (useExtendedGeneration this) then v
        else afterMultiline
    | None => afterMultiline
    end.
Proof.
  unfold resolvedRequestParams, JS.truthy.
  destruct (timeouts_multiline this) as [m |],
           (timeouts_singleline this) as [s |],
           (useExtendedGeneration this);
    try destruct (negb (m =? 0)); try destruct (negb (s =? 0)); reflexivity.
Qed.

(** The custom timeouts change nothing but the timeout. *)
Lemma resolved_other_fields :
  let requestParams := resolvedRequestParams E this snippets in
  let args :=
    if useExtendedGeneration this then MULTI_LINE_COMPLETION_ARGS
    else SINGLE_LINE_COMPLETION_ARGS in
  requestParams.(CodeCompletionsParams.maxTokensToSample)
    = args.(CompletionArgs.maxTokensToSample)
  /\ requestParams.(CodeCompletionsParams.stopSequences)
     = args.(CompletionArgs.stopSequences)
  /\ requestParams.(CodeCompletionsParams.temperature) = 0.2%Q
  /\ requestParams.(CodeCompletionsParams.topK) = 0
  /\ requestParams.(CodeCompletionsParams.model)
     = (if String.eqb this.(FireworksProvider.model) "starcoder-hybrid"
        then lookup
               (if this.(FireworksProvider.options).(ProviderOptions.multiline)
                then "starcoder-16b" else "starcoder-7b") MODEL_MAP
        else lookup this.(FireworksProvider.model) MODEL_MAP).
Proof.
  unfold resolvedRequestParams, JS.truthy.
  destruct (timeouts_multiline this) as [m |],
           (timeouts_singleline this) as [s |],
           (useExtendedGeneration this);
    try destruct (negb (m =? 0)); try destruct (negb (s =? 0));
    repeat split; reflexivity.
Qed.

(** The timeout is never zero when it is tested: a preset is not zero,
    and a custom timeout of zero is not applied. *)
Lemma resolved_timeout_nonzero :
  (resolvedRequestParams E this snippets).(CodeCompletionsParams.timeoutMs) <> 0.
Proof.
  rewrite resolved_timeoutMs. cbv zeta.
  destruct (timeouts_multiline this) as [m |],
           (timeouts_singleline this) as [s |],
           (useExtendedGeneration this);
    try destruct (Z.eqb_spec m 0); try destruct (Z.eqb_spec s 0);
    cbn; lia.
Qed.

(** So [generateCompletions] always starts its fetches. *)
Lemma generateCompletions_awaiting (tracer : bool) :
  let dynamic :=
    this.(FireworksProvider.options).(ProviderOptions.dynamicMultilineCompletions) in
  let requestParams :=
    if dynamic
    then CodeCompletionsParams.assign (resolvedRequestParams E this snippets)
           DYNAMIC_MULTLILINE_COMPLETIONS_ARGS
    else resolvedRequestParams E this snippets in
  let impl :=
    if dynamic then fetchAndProcessDynamicMultilineCompletions
    else fetchAndProcessCompletions in
  generateCompletions E this snippets tracer
  = (((if tracer then [tracer_params requestParams] else [])
        ++ repeat (fetch impl requestParams)
             this.(FireworksProvider.options).(ProviderOptions.n))%list,
     Awaiting).
Proof.
  unfold generateCompletions.
  destruct (Z.eqb_spec
              (resolvedRequestParams E this snippets).(CodeCompletionsParams.timeoutMs)
              0) as [zero | _].
  - now apply resolved_timeout_nonzero in zero.
  - destruct (this.(FireworksProvider.options)
                  .(ProviderOptions.dynamicMultilineCompletions));
      reflexivity.
Qed.

End Request.

(** ** The aggregation of the samples *)

Lemma readyCalls_app (log1 log2 : list Call) :
  readyCalls (log1 ++ log2) = (readyCalls log1 ++ readyCalls log2)%list.
Proof.
  induction log1 as [| call log1 IH]; [reflexivity |].
  destruct call; cbn; now rewrite ?IH.
Qed.

Lemma fetchCalls_app (log1 log2 : list Call) :
  fetchCalls (log1 ++ log2) = (fetchCalls log1 ++ fetchCalls log2)%list.
Proof.
  induction log1 as [| call log1 IH]; [reflexivity |].
  destruct call; cbn; now rewrite ?IH.
Qed.

Lemma readyCalls_repeat_fetch (impl : FetchImpl)
    (requestParams : CodeCompletionsParams.t) (k : nat) :
  readyCalls (repeat (fetch impl requestParams) k) = [].
Proof.
  induction k as [| k IH]; [reflexivity | exact IH].
Qed.

Lemma fetchCalls_repeat_fetch (impl : FetchImpl)
    (requestParams : CodeCompletionsParams.t) (k : nat) :
  fetchCalls (repeat (fetch impl requestParams) k) = repeat requestParams k.
Proof.
  induction k as [| k IH]; [reflexivity | cbn; now rewrite IH].
Qed.

Section Aggregation.

Variable this : FireworksProvider.t.
Variable tracer : bool.

Let n : nat := this.(FireworksProvider.options).(ProviderOptions.n).

(** One arrival: the array grows by one, and the caller is called when
    the array has [n] items, with the array. *)
Lemma onCompletionReadyImpl_spec
    (completions : list InlineCompletionItemWithAnalytics.t)
    (completion : InlineCompletionItemWithAnalytics.t) :
  let '(completions', calls) :=
    onCompletionReadyImpl this tracer completions completion in
  completions' = (completions ++ [completion])%list
  /\ fetchCalls calls = []
  /\ readyCalls calls
     = if (List.length completions' =? n)%nat then [completions'] else [].
Proof.
  unfold onCompletionReadyImpl. fold n.
  destruct (List.length (completions ++ [completion]) =? n)%nat eqn:full;
    (split; [reflexivity | split]);
    rewrite ?full; destruct tracer; reflexivity.
Qed.

(** The fetches are started before the first arrival. *)
Lemma deliver_no_fetch (arrivals : list InlineCompletionItemWithAnalytics.t) :
  forall completions, fetchCalls (deliver this tracer completions arrivals) = [].
Proof.
  induction arrivals as [| completion arrivals IH]; intros completions.
  - reflexivity.
  - cbn [deliver].
    pose proof (onCompletionReadyImpl_spec completions completion) as step.
    destruct (onCompletionReadyImpl this tracer completions completion)
      as [completions' calls].
    destruct step as (_ & none & _).
    rewrite fetchCalls_app, none, IH. reflexivity.
Qed.

(** Once the array holds [n] items or more, the caller is not called. *)
Lemma deliver_after_full (arrivals : list InlineCompletionItemWithAnalytics.t) :
  forall completions,
    (n <= List.length completions)%nat ->
    readyCalls (deliver this tracer completions arrivals) = [].
Proof.
  induction arrivals as [| completion arrivals IH]; intros completions full.
  - reflexivity.
  - cbn [deliver].
    pose proof (onCompletionReadyImpl_spec completions completion) as step.
    destruct (onCompletionReadyImpl this tracer completions completion)
      as [completions' calls].
    destruct step as (-> & _ & ready).
    rewrite readyCalls_app, ready.
    rewrite List.length_app. cbn [List.length].
    destruct (Nat.eqb_spec (List.length completions + 1) n) as [e | _]; [lia |].
    rewrite IH; [reflexivity |]. rewrite List.length_app. cbn. lia.
Qed.

(** The caller is called at most once, and with [n] items. *)
Lemma deliver_ready (arrivals : list InlineCompletionItemWithAnalytics.t) :
  forall completions,
    let ready := readyCalls (deliver this tracer completions arrivals) in
    (List.length ready <= 1)%nat
    /\ forall delivered, In delivered ready -> List.length delivered = n.
Proof.
  induction arrivals as [| completion arrivals IH]; intros completions.
  - cbn. split; [lia | contradiction].
  - cbn [deliver]. cbv zeta.
    pose proof (onCompletionReadyImpl_spec completions completion) as step.
    destruct (onCompletionReadyImpl this tracer completions completion)
      as [completions' calls].
    destruct step as (-> & _ & ready).
    rewrite readyCalls_app, ready.
    destruct (Nat.eqb_spec (List.length (completions ++ [completion])) n)
      as [full | _].
    + rewrite deliver_after_full by lia. cbn. split; [lia |].
      intros delivered [<- | []]. exact full.
    + apply IH.
Qed.

End Aggregation.

(** C3. In every invocation of [generateCompletions] with sample count
    [n], whatever the fetches deliver and in whatever order, the caller's
    [onCompletionReady] is called at most once, and whenever it is called
    with a list that is not empty the list has exactly [n] items: a set of
    fewer than [n] items is never delivered. *)
Theorem onCompletionReady_once_with_full_set (E : Collaborators)
    (this : FireworksProvider.t) (snippets : list ContextSnippet.t)
    (tracer : bool) (arrivals : list InlineCompletionItemWithAnalytics.t) :
  let n := this.(FireworksProvider.options).(ProviderOptions.n) in
  let ready := readyCalls (generateCompletions_log E this snippets tracer arrivals) in
  (List.length ready <= 1)%nat
  /\ forall delivered,
       In delivered ready -> delivered <> [] -> List.length delivered = n.
Proof.
  intros n ready. subst ready. unfold generateCompletions_log.
  unfold generateCompletions.
  destruct ((resolvedRequestParams E this snippets).(CodeCompletionsParams.timeoutMs)
            =? 0).
  - cbn. split; [lia |]. intros delivered [<- | []] nonempty. now elim nonempty.
  - destruct (if this.(FireworksProvider.options)
                     .(ProviderOptions.dynamicMultilineCompletions)
              then _ else _) as [requestParams impl].
    rewrite !readyCalls_app, readyCalls_repeat_fetch.
    replace (readyCalls (if tracer then [tracer_params requestParams] else []))
      with (@nil (list InlineCompletionItemWithAnalytics.t))
      by (destruct tracer; reflexivity).
    cbn [app].
    destruct (deliver_ready this tracer arrivals []) as [once full].
    split; [exact once |]. intros delivered isin _. now apply full.
Qed.

Lemma onCompletionReady_once_with_full_set_witness :
  In [Sample.item "a"; Sample.item "b"]
    (readyCalls
       (generateCompletions_log Sample.collaborators Sample.twoSamples [] false
          [Sample.item "a"; Sample.item "b"; Sample.item "c"]))
  /\ [Sample.item "a"; Sample.item "b"] <> []
  /\ List.length [Sample.item "a"; Sample.item "b"] = 2%nat.
Proof.
  pose (this := Sample.twoSamples).
  pose (delivered := [Sample.item "a"; Sample.item "b"]).
  assert (isin : In delivered
                   (readyCalls
                      (generateCompletions_log Sample.collaborators this [] false
                         [Sample.item "a"; Sample.item "b"; Sample.item "c"]))).
  { vm_compute. left. reflexivity. }
  assert (nonempty : delivered <> []) by discriminate.
  split; [exact isin | split; [exact nonempty |]].
  exact (proj2 (onCompletionReady_once_with_full_set Sample.collaborators this []
                  false [Sample.item "a"; Sample.item "b"; Sample.item "c"])
           delivered isin nonempty).
Defined.

(** ** The requests that are sent *)

Section Dispatch.

Variable E : Collaborators.
Variable this : FireworksProvider.t.
Variable snippets : list ContextSnippet.t.
Variable tracer : bool.
Variable arrivals : list InlineCompletionItemWithAnalytics.t.

(** Every invocation sends [n] times the same request: the resolved
    parameters, with the dynamic multiline preset on top when that mode
    is on. *)
Lemma fetchCalls_log :
  fetchCalls (generateCompletions_log E this snippets tracer arrivals)
  = repeat
      (if this.(FireworksProvider.options)
              .(ProviderOptions.dynamicMultilineCompletions)
       then CodeCompletionsParams.assign (resolvedRequestParams E this snippets)
              DYNAMIC_MULTLILINE_COMPLETIONS_ARGS
       else resolvedRequestParams E this snippets)
      this.(FireworksProvider.options).(ProviderOptions.n).
Proof.
  unfold generateCompletions_log.
  rewrite generateCompletions_awaiting. cbv zeta.
  rewrite !fetchCalls_app, fetchCalls_repeat_fetch, deliver_no_fetch.
  rewrite app_nil_r. destruct tracer; reflexivity.
Qed.

(** No invocation calls the caller with an empty list. *)
Lemma never_ready_with_nothing :
  ~ In [] (readyCalls (generateCompletions_log E this snippets tracer arrivals)).
Proof.
  unfold generateCompletions_log.
  rewrite generateCompletions_awaiting. cbv zeta.
  rewrite !readyCalls_app, readyCalls_repeat_fetch.
  replace (readyCalls (if tracer then [tracer_params _] else []))
    with (@nil (list InlineCompletionItemWithAnalytics.t))
    by (destruct tracer; reflexivity).
  cbn [app].
  assert (never : forall completions,
             ~ In [] (readyCalls (deliver this tracer completions arrivals))).
  { induction arrivals as [| completion rest IH]; intros completions isin.
    - exact isin.
    - cbn [deliver] in isin.
      pose proof (onCompletionReadyImpl_spec this tracer completions completion)
        as step.
      destruct (onCompletionReadyImpl this tracer completions completion)
        as [completions' calls].
      destruct step as (-> & _ & ready).
      rewrite readyCalls_app, ready in isin.
      apply in_app_or in isin as [isin | isin].
      + destruct (_ =? _)%nat; [| exact isin].
        destruct isin as [e | []]. destruct completions; discriminate e.
      + exact (IH _ isin). }
  apply never.
Qed.

(** A custom timeout of zero is not applied: the preset stays. *)
Lemma zero_multiline_timeout_ignored :
  timeouts_multiline this = Some 0 ->
  useExtendedGeneration this = true ->
  (resolvedRequestParams E this snippets).(CodeCompletionsParams.timeoutMs)
  = 15000.
Proof.
  intros zero ext. rewrite resolved_timeoutMs, zero, ext. cbn.
  destruct (timeouts_singleline this) as [s |]; [| reflexivity].
  now rewrite andb_false_r.
Qed.

Lemma zero_singleline_timeout_ignored :
  timeouts_singleline this = Some 0 ->
  useExtendedGeneration this = false ->
  (resolvedRequestParams E this snippets).(CodeCompletionsParams.timeoutMs)
  = 5000.
Proof.
  intros zero ext. rewrite resolved_timeoutMs, zero, ext. cbn.
  destruct (timeouts_multiline this) as [m |]; [| reflexivity].
  now rewrite andb_false_r.
Qed.

End Dispatch.

(** A custom multiline timeout of zero on a multiline request is not
    applied: the timeout that is tested is the preset of 15000 ms, so the
    call does not end with an empty result; its only call is one fetch
    with that timeout, and the caller is not called. *)
Theorem zero_timeout_override_still_fetches :
  timeouts_multiline Sample.zeroMultilineTimeout = Some 0
  /\ useExtendedGeneration Sample.zeroMultilineTimeout = true
  /\ (resolvedRequestParams Sample.collaborators Sample.zeroMultilineTimeout [])
       .(CodeCompletionsParams.timeoutMs) = 15000
  /\ generateCompletions Sample.collaborators Sample.zeroMultilineTimeout [] false
     = ([fetch fetchAndProcessCompletions
           (resolvedRequestParams Sample.collaborators
              Sample.zeroMultilineTimeout [])],
        Awaiting)
  /\ readyCalls
       (generateCompletions_log Sample.collaborators Sample.zeroMultilineTimeout
          [] false [])
     = [].
Proof.
  repeat split; vm_compute; reflexivity.
Qed.

(** ** The model of a configuration *)

Lemma hasOwnProperty_In (table : list (string * string)) (key : string) :
  hasOwnProperty table key = true <-> In key (map fst table).
Proof.
  unfold hasOwnProperty. rewrite existsb_exists, in_map_iff. split.
  - intros (entry & isin & same). apply String.eqb_eq in same.
    exists entry. auto.
  - intros (entry & same & isin). exists entry. split; [exact isin |].
    apply String.eqb_eq. auto.
Qed.

(** C5. [createProviderConfig] throws an error that names the model when
    the model is a string that is not empty, is not "starcoder-hybrid" and
    is not a key of the table of known models; it resolves [null] and the
    empty string to "starcoder-hybrid"; and it resolves a key of the table
    to itself. *)
Theorem createProviderConfig_model (E : Collaborators)
    (timeouts : option AutocompleteTimeouts.t) :
  (forall model,
      model <> "" -> model <> "starcoder-hybrid" ->
      ~ In model (map fst MODEL_MAP) ->
      createProviderConfig E (Some model) timeouts
      = Throw ("Unknown model: `" ++ model ++ "`"))
  /\ (forall model,
        model = None \/ model = Some "" ->
        exists config,
          createProviderConfig E model timeouts = Ok config
          /\ ProviderConfig.model config = "starcoder-hybrid")
  /\ (forall model,
        In model (map fst MODEL_MAP) ->
        exists config,
          createProviderConfig E (Some model) timeouts = Ok config
          /\ ProviderConfig.model config = model).
Proof.
  split; [| split].
  - intros model nonempty nothybrid unknown.
    unfold createProviderConfig. cbn [isNull strictEq toString orb].
    destruct (String.eqb_spec model "") as [e | _]; [contradiction |].
    destruct (String.eqb_spec model "starcoder-hybrid") as [e | _];
      [contradiction |].
    destruct (hasOwnProperty MODEL_MAP model) eqn:own; [| reflexivity].
    apply hasOwnProperty_In in own. contradiction.
  - intros model [-> | ->]; eexists; split; reflexivity.
  - intros model known.
    unfold createProviderConfig. cbn [isNull strictEq toString orb].
    destruct (String.eqb_spec model "") as [-> | _].
    { cbn in known. intuition discriminate. }
    destruct (String.eqb_spec model "starcoder-hybrid") as [-> | _].
    { eexists; split; reflexivity. }
    apply hasOwnProperty_In in known. rewrite known.
    eexists; split; reflexivity.
Qed.

Lemma createProviderConfig_model_witness :
  createProviderConfig Sample.collaborators (Some "gpt-4") None
  = Throw "Unknown model: `gpt-4`"
  /\ (exists config,
        createProviderConfig Sample.collaborators (Some "") None = Ok config
        /\ ProviderConfig.model config = "starcoder-hybrid")
  /\ (exists config,
        createProviderConfig Sample.collaborators (Some "llama-code-13b") None
        = Ok config
        /\ ProviderConfig.model config = "llama-code-13b").
Proof.
  pose proof (createProviderConfig_model Sample.collaborators None)
    as (unknown & default & known).
  split; [| split].
  - apply (unknown "gpt-4"); [discriminate | discriminate |].
    cbn. intuition discriminate.
  - apply (default (Some "")). right. reflexivity.
  - apply (known "llama-code-13b"). cbn. do 5 right. left. reflexivity.
Defined.

(** ** The custom timeouts *)

Section Timeouts.

Variable E : Collaborators.
Variable this : FireworksProvider.t.
Variable snippets : list ContextSnippet.t.

(** The prompt does not depend on the custom timeouts. *)
Lemma createPrompt_withTimeouts (timeouts : option AutocompleteTimeouts.t) :
  createPrompt E (withTimeouts this timeouts) snippets
  = createPrompt E this snippets.
Proof. reflexivity. Qed.

Lemma resolvedRequestParams_withTimeouts
    (multiline singleline : option Z) :
  resolvedRequestParams E
    (withTimeouts this
       (Some {| AutocompleteTimeouts.multiline := multiline;
                AutocompleteTimeouts.singleline := singleline |}))
    snippets
  = let requestParams := resolvedRequestParams E (withTimeouts this None) snippets in
    let requestParams :=
      match multiline with
      | Some v =>
          if negb (v =? 0) && useExtendedGeneration this
          then CodeCompletionsParams.set_timeoutMs v requestParams
          else requestParams
      | None => requestParams
      end in
    match singleline with
    | Some v =>
        if negb (v =? 0) && negb (useExtendedGeneration this)
        then CodeCompletionsParams.set_timeoutMs v requestParams
        else requestParams
    | None => requestParams
    end.
Proof. reflexivity. Qed.

(** In extended generation the single-line timeout is not read, and
    outside of it the multiline timeout is not read. *)
Lemma singleline_timeout_unused (multiline singleline singleline' : option Z) :
  useExtendedGeneration this = true ->
  resolvedRequestParams E
    (withTimeouts this
       (Some {| AutocompleteTimeouts.multiline := multiline;
                AutocompleteTimeouts.singleline := singleline |}))
    snippets
  = resolvedRequestParams E
      (withTimeouts this
         (Some {| AutocompleteTimeouts.multiline := multiline;
                  AutocompleteTimeouts.singleline := singleline' |}))
      snippets.
Proof.
  intros ext. rewrite !resolvedRequestParams_withTimeouts. cbv zeta.
  rewrite ext.
  destruct singleline, singleline'; rewrite ?andb_false_r; reflexivity.
Qed.

Lemma multiline_timeout_unused (multiline multiline' singleline : option Z) :
  useExtendedGeneration this = false ->
  resolvedRequestParams E
    (withTimeouts this
       (Some {| AutocompleteTimeouts.multiline := multiline;
                AutocompleteTimeouts.singleline := singleline |}))
    snippets
  = resolvedRequestParams E
      (withTimeouts this
         (Some {| AutocompleteTimeouts.multiline := multiline';
                  AutocompleteTimeouts.singleline := singleline |}))
      snippets.
Proof.
  intros ext. rewrite !resolvedRequestParams_withTimeouts. cbv zeta.
  rewrite ext.
  destruct multiline, multiline'; rewrite ?andb_false_r; reflexivity.
Qed.

(** The log depends on the custom timeouts through the resolved
    parameters only. *)
Lemma log_withTimeouts (timeouts timeouts' : option AutocompleteTimeouts.t)
    (tracer : bool) (arrivals : list InlineCompletionItemWithAnalytics.t) :
  resolvedRequestParams E (withTimeouts this timeouts) snippets
  = resolvedRequestParams E (withTimeouts this timeouts') snippets ->
  generateCompletions_log E (withTimeouts this timeouts) snippets tracer arrivals
  = generateCompletions_log E (withTimeouts this timeouts') snippets tracer
      arrivals.
Proof.
  intros same. unfold generateCompletions_log, generateCompletions.
  rewrite same. reflexivity.
Qed.

End Timeouts.

(** The claim of C6 fails in dynamic multiline mode: extended generation is
    active and a multiline timeout of 3000 ms is configured, and the
    request that is sent has the timeout of the dynamic multiline preset,
    15000 ms. *)
Lemma dynamic_multiline_resets_timeout :
  useExtendedGeneration Sample.dynamicMultilineTimeout = true
  /\ timeouts_multiline Sample.dynamicMultilineTimeout = Some 3000
  /\ map CodeCompletionsParams.timeoutMs
       (fetchCalls
          (generateCompletions_log Sample.collaborators
             Sample.dynamicMultilineTimeout [] false []))
     = [15000]
  /\ 15000 <> 3000.
Proof.
  repeat split; try (vm_compute; reflexivity). discriminate.
Qed.

(** C6, as the code has it. When dynamic multiline mode is on, every
    request that is sent has the timeout of the dynamic multiline preset,
    15000 ms. When it is off, a configured multiline timeout that is not
    zero is the timeout of every request that is sent in extended
    generation, and a configured single-line timeout that is not zero is
    the timeout of every request that is sent outside of it. In extended
    generation the configured single-line timeout has no effect on the
    calls of [generateCompletions], and outside of it the configured
    multiline timeout has none. *)
Theorem timeout_overrides (E : Collaborators) (this : FireworksProvider.t)
    (snippets : list ContextSnippet.t) (tracer : bool)
    (arrivals : list InlineCompletionItemWithAnalytics.t) :
  let dynamic :=
    this.(FireworksProvider.options).(ProviderOptions.dynamicMultilineCompletions) in
  let extended := useExtendedGeneration this in
  (forall requestParams,
      In requestParams
        (fetchCalls (generateCompletions_log E this snippets tracer arrivals)) ->
      (dynamic = true -> requestParams.(CodeCompletionsParams.timeoutMs) = 15000)
      /\ (dynamic = false -> forall v, v <> 0 ->
            (extended = true -> timeouts_multiline this = Some v ->
             requestParams.(CodeCompletionsParams.timeoutMs) = v)
            /\ (extended = false -> timeouts_singleline this = Some v ->
                requestParams.(CodeCompletionsParams.timeoutMs) = v)))
  /\ (extended = true -> forall multiline singleline singleline',
        generateCompletions_log E
          (withTimeouts this
             (Some {| AutocompleteTimeouts.multiline := multiline;
                      AutocompleteTimeouts.singleline := singleline |}))
          snippets tracer arrivals
        = generateCompletions_log E
            (withTimeouts this
               (Some {| AutocompleteTimeouts.multiline := multiline;
                        AutocompleteTimeouts.singleline := singleline' |}))
            snippets tracer arrivals)
  /\ (extended = false -> forall multiline multiline' singleline,
        generateCompletions_log E
          (withTimeouts this
             (Some {| AutocompleteTimeouts.multiline := multiline;
                      AutocompleteTimeouts.singleline := singleline |}))
          snippets tracer arrivals
        = generateCompletions_log E
            (withTimeouts this
               (Some {| AutocompleteTimeouts.multiline := multiline';
                        AutocompleteTimeouts.singleline := singleline |}))
            snippets tracer arrivals).
Proof.
  intros dynamic extended. split; [| split].
  - intros requestParams sent. rewrite fetchCalls_log in sent.
    apply repeat_spec in sent. fold dynamic in sent. subst requestParams.
    split.
    + intros ->. reflexivity.
    + intros -> v nonzero. rewrite resolved_timeoutMs. cbv zeta.
      fold extended.
      apply Z.eqb_neq in nonzero.
      split; intros -> configured; rewrite configured, nonzero; cbn.
      * destruct (timeouts_singleline this) as [s |]; [| reflexivity].
        now rewrite andb_false_r.
      * reflexivity.
  - intros ext multiline singleline singleline'.
    apply log_withTimeouts. now apply singleline_timeout_unused.
  - intros ext multiline multiline' singleline.
    apply log_withTimeouts. now apply multiline_timeout_unused.
Qed.

Lemma timeout_overrides_witness :
  (resolvedRequestParams Sample.collaborators Sample.multilineTimeout [])
    .(CodeCompletionsParams.timeoutMs) = 3000
  /\ (resolvedRequestParams Sample.collaborators Sample.singlelineTimeout [])
       .(CodeCompletionsParams.timeoutMs) = 900
  /\ generateCompletions_log Sample.collaborators
       (withTimeouts Sample.multilineTimeout (Sample.timeouts (Some 3000) (Some 900)))
       [] false []
     = generateCompletions_log Sample.collaborators
         (withTimeouts Sample.multilineTimeout (Sample.timeouts (Some 3000) None))
         [] false []
  /\ generateCompletions_log Sample.collaborators
       (withTimeouts Sample.singlelineTimeout (Sample.timeouts (Some 3000) (Some 900)))
       [] false []
     = generateCompletions_log Sample.collaborators
         (withTimeouts Sample.singlelineTimeout (Sample.timeouts None (Some 900)))
         [] false [].
Proof.
  pose proof (timeout_overrides Sample.collaborators Sample.multilineTimeout
                [] false []) as multi.
  pose proof (timeout_overrides Sample.collaborators Sample.singlelineTimeout
                [] false []) as single.
  cbv zeta in multi, single.
  destruct multi as (sentMulti & unusedSingle & _).
  destruct single as (sentSingle & _ & unusedMulti).
  split; [| split; [| split]].
  - refine (proj1 (proj2 (sentMulti _ _) eq_refl 3000 _) eq_refl eq_refl).
    + vm_compute. left. reflexivity.
    + discriminate.
  - refine (proj2 (proj2 (sentSingle _ _) eq_refl 900 _) eq_refl eq_refl).
    + vm_compute. left. reflexivity.
    + discriminate.
  - exact (unusedSingle eq_refl (Some 3000) (Some 900) None).
  - exact (unusedMulti eq_refl (Some 3000) None (Some 900)).
Defined.

(** ** The comment lines of the intro *)

(** With a language profile, a line of the intro is the comment prefix of
    the profile followed by the line. *)
Lemma commentLine_with_profile (config : LanguageConfig.t) (line : string) :
  commentLine (Some config) line
  = config.(LanguageConfig.commentStart) ++ line.
Proof. reflexivity. Qed.

(** Without one, it is the default marker alone, whatever the line. *)
Lemma commentLine_without_profile (line : string) :
  commentLine None line = "// ".
Proof. reflexivity. Qed.

(** C7, at a Llama Code request for a file of a language without a
    profile. The intro holds the path of the file, and the line that
    renders it is the default comment marker without the path: the content
    of the line is lost, and the prompt does not name the file. *)
Theorem intro_line_lost_without_profile :
  getLanguageConfig Sample.collaborators (languageId Sample.llamaNoProfile) = None
  /\ initialIntro Sample.llamaNoProfile = ["Path: src/a.ts"]
  /\ introString None (initialIntro Sample.llamaNoProfile) = "// " ++ LF
  /\ introString None (initialIntro Sample.llamaNoProfile)
     <> "// Path: src/a.ts" ++ LF
  /\ createPrompt Sample.collaborators Sample.llamaNoProfile []
     = "<PRE> // " ++ LF ++ "let a =  <SUF> <MID>".
Proof.
  repeat split; try (vm_compute; reflexivity). vm_compute. discriminate.
Qed.

(** ** The hybrid model and the sampling parameters *)

(** The claim of C8 fails where a multiline timeout is configured: the
    model is the hybrid one, the request is multiline, dynamic multiline
    mode is off, and the request that is sent has the configured timeout
    of 3000 ms, not the 15000 ms of the preset. *)
Lemma hybrid_multiline_timeout_not_preset :
  Sample.multilineTimeout.(FireworksProvider.model) = "starcoder-hybrid"
  /\ useExtendedGeneration Sample.multilineTimeout = true
  /\ Sample.multilineTimeout.(FireworksProvider.options)
       .(ProviderOptions.dynamicMultilineCompletions) = false
  /\ map CodeCompletionsParams.timeoutMs
       (fetchCalls
          (generateCompletions_log Sample.collaborators Sample.multilineTimeout
             [] false []))
     = [3000]
  /\ 3000 <> 15000.
Proof.
  repeat split; try (vm_compute; reflexivity). discriminate.
Qed.

(** C8, as the code has it. For the model "starcoder-hybrid", every request
    that is sent names the model that the table gives for "starcoder-16b"
    when the request is multiline and the one it gives for "starcoder-7b"
    otherwise. When extended generation is active and dynamic multiline
    mode is off, the request asks for at most 256 tokens and stops at the
    sequences "\n\n" and "\n\r\n"; its timeout is 15000 ms when no
    multiline timeout is configured, and is the configured multiline
    timeout when one that is not zero is. *)
Theorem hybrid_request (E : Collaborators) (this : FireworksProvider.t)
    (snippets : list ContextSnippet.t) (tracer : bool)
    (arrivals : list InlineCompletionItemWithAnalytics.t)
    (requestParams : CodeCompletionsParams.t) :
  this.(FireworksProvider.model) = "starcoder-hybrid" ->
  In requestParams
    (fetchCalls (generateCompletions_log E this snippets tracer arrivals)) ->
  let options := this.(FireworksProvider.options) in
  (options.(ProviderOptions.multiline) = true ->
   requestParams.(CodeCompletionsParams.model) = Some "fireworks/starcoder-16b")
  /\ (options.(ProviderOptions.multiline) = false ->
      requestParams.(CodeCompletionsParams.model) = Some "fireworks/starcoder-7b")
  /\ (useExtendedGeneration this = true ->
      options.(ProviderOptions.dynamicMultilineCompletions) = false ->
      requestParams.(CodeCompletionsParams.maxTokensToSample) = 256
      /\ requestParams.(CodeCompletionsParams.stopSequences)
         = Some [LF ++ LF; LF ++ CR ++ LF]
      /\ (timeouts_multiline this = None ->
          requestParams.(CodeCompletionsParams.timeoutMs) = 15000)
      /\ (forall v, timeouts_multiline this = Some v -> v <> 0 ->
          requestParams.(CodeCompletionsParams.timeoutMs) = v)).
Proof.
  intros hybrid sent options. rewrite fetchCalls_log in sent.
  apply repeat_spec in sent.
  destruct (resolved_other_fields E this snippets)
    as (tokens & stops & _ & _ & model).
  rewrite hybrid in model. cbn [String.eqb Ascii.eqb Bool.eqb andb] in model.
  assert (sameModel : requestParams.(CodeCompletionsParams.model)
                      = (resolvedRequestParams E this snippets)
                          .(CodeCompletionsParams.model)).
  { subst requestParams.
    destruct (ProviderOptions.dynamicMultilineCompletions _); reflexivity. }
  rewrite sameModel, model. fold options.
  split; [intros ->; reflexivity | split; [intros ->; reflexivity |]].
  intros ext off. fold options in sent. rewrite off in sent. subst requestParams.
  rewrite tokens, stops, resolved_timeoutMs, ext. cbv zeta.
  split; [reflexivity | split; [reflexivity | split]].
  - intros ->.
    destruct (timeouts_singleline this) as [s |]; [| reflexivity].
    now rewrite andb_false_r.
  - intros v -> nonzero. apply Z.eqb_neq in nonzero. rewrite nonzero. cbn.
    destruct (timeouts_singleline this) as [s |]; [| reflexivity].
    now rewrite andb_false_r.
Qed.

Lemma hybrid_request_witness :
  (resolvedRequestParams Sample.collaborators Sample.multilineTimeout [])
    .(CodeCompletionsParams.model) = Some "fireworks/starcoder-16b"
  /\ (resolvedRequestParams Sample.collaborators Sample.multilineTimeout [])
       .(CodeCompletionsParams.maxTokensToSample) = 256
  /\ (resolvedRequestParams Sample.collaborators Sample.multilineTimeout [])
       .(CodeCompletionsParams.stopSequences) = Some [LF ++ LF; LF ++ CR ++ LF]
  /\ (resolvedRequestParams Sample.collaborators Sample.multilineTimeout [])
       .(CodeCompletionsParams.timeoutMs) = 3000
  /\ (resolvedRequestParams Sample.collaborators
        (withTimeouts Sample.multilineTimeout None) [])
       .(CodeCompletionsParams.timeoutMs) = 15000.
Proof.
  assert (sent : forall this,
             this.(FireworksProvider.options).(ProviderOptions.n) = 1%nat ->
             this.(FireworksProvider.options)
                 .(ProviderOptions.dynamicMultilineCompletions) = false ->
             In (resolvedRequestParams Sample.collaborators this [])
               (fetchCalls
                  (generateCompletions_log Sample.collaborators this [] false []))).
  { intros this one off. rewrite fetchCalls_log, one, off. left. reflexivity. }
  pose proof (hybrid_request Sample.collaborators Sample.multilineTimeout
                [] false [] _ eq_refl
                (sent Sample.multilineTimeout eq_refl eq_refl)) as custom.
  pose proof (hybrid_request Sample.collaborators
                (withTimeouts Sample.multilineTimeout None)
                [] false [] _ eq_refl
                (sent (withTimeouts Sample.multilineTimeout None) eq_refl eq_refl))
    as preset.
  cbv zeta in custom, preset.
  destruct custom as (large & _ & custom).
  destruct (custom eq_refl eq_refl) as (tokens & stops & _ & configured).
  destruct preset as (_ & _ & preset).
  destruct (preset eq_refl eq_refl) as (_ & _ & unset & _).
  split; [exact (large eq_refl) |].
  split; [exact tokens |].
  split; [exact stops |].
  split; [apply (configured 3000 eq_refl); discriminate |].
  exact (unset eq_refl).
Defined.

(** C10. Every request that [generateCompletions] sends, for every model,
    mode and flag, has the temperature 0.2 and the top K 0. *)
Theorem request_sampling_parameters (E : Collaborators)
    (this : FireworksProvider.t) (snippets : list ContextSnippet.t)
    (tracer : bool) (arrivals : list InlineCompletionItemWithAnalytics.t)
    (requestParams : CodeCompletionsParams.t) :
  In requestParams
    (fetchCalls (generateCompletions_log E this snippets tracer arrivals)) ->
  requestParams.(CodeCompletionsParams.temperature) = 0.2%Q
  /\ requestParams.(CodeCompletionsParams.topK) = 0.
Proof.
  intros sent. rewrite fetchCalls_log in sent. apply repeat_spec in sent.
  destruct (resolved_other_fields E this snippets)
    as (_ & _ & temperature & topK & _).
  subst requestParams.
  destruct (ProviderOptions.dynamicMultilineCompletions _);
    split; assumption.
Qed.

Lemma request_sampling_parameters_witness :
  In (CodeCompletionsParams.assign
        (resolvedRequestParams Sample.collaborators
           Sample.dynamicMultilineTimeout [])
        DYNAMIC_MULTLILINE_COMPLETIONS_ARGS)
    (fetchCalls
       (generateCompletions_log Sample.collaborators
          Sample.dynamicMultilineTimeout [] true [Sample.item "a"]))
  /\ (CodeCompletionsParams.assign
        (resolvedRequestParams Sample.collaborators
           Sample.dynamicMultilineTimeout [])
        DYNAMIC_MULTLILINE_COMPLETIONS_ARGS)
       .(CodeCompletionsParams.temperature) = 0.2%Q
  /\ (CodeCompletionsParams.assign
        (resolvedRequestParams Sample.collaborators
           Sample.dynamicMultilineTimeout [])
        DYNAMIC_MULTLILINE_COMPLETIONS_ARGS)
       .(CodeCompletionsParams.topK) = 0.
Proof.
  assert (sent :
            In (CodeCompletionsParams.assign
                  (resolvedRequestParams Sample.collaborators
                     Sample.dynamicMultilineTimeout [])
                  DYNAMIC_MULTLILINE_COMPLETIONS_ARGS)
              (fetchCalls
                 (generateCompletions_log Sample.collaborators
                    Sample.dynamicMultilineTimeout [] true [Sample.item "a"]))).
  { vm_compute. left. reflexivity. }
  split; [exact sent |].
  exact (request_sampling_parameters Sample.collaborators
           Sample.dynamicMultilineTimeout [] true [Sample.item "a"] _ sent).
Defined.

(** ** More about strings, lines and joins *)

Lemma string_app_assoc (a b c : string) : (a ++ b) ++ c = a ++ b ++ c.
Proof.
  induction a as [| x a IH]; cbn; [reflexivity | now rewrite IH].
Qed.

Lemma string_app_nil_r (a : string) : a ++ "" = a.
Proof.
  induction a as [| x a IH]; cbn; [reflexivity | now rewrite IH].
Qed.

Lemma split_lf_nonempty (s : string) : JS.split_lf s <> [].
Proof.
  destruct s as [| c s]; cbn [JS.split_lf]; [discriminate |].
  destruct (Ascii.eqb c lf); [discriminate |].
  destruct (JS.split_lf s); discriminate.
Qed.

(** The lines of two texts that a line feed joins are the lines of the one
    followed by the lines of the other. *)
Lemma split_lf_app_lf (a b : string) :
  JS.split_lf (a ++ LF ++ b) = (JS.split_lf a ++ JS.split_lf b)%list.
Proof.
  induction a as [| c a IH].
  - cbn. reflexivity.
  - change ((String c a ++ LF ++ b)%string) with (String c (a ++ LF ++ b)).
    cbn [JS.split_lf]. rewrite IH.
    destruct (Ascii.eqb c lf); [reflexivity |].
    pose proof (split_lf_nonempty a) as nonempty.
    destruct (JS.split_lf a) as [| piece pieces]; [contradiction | reflexivity].
Qed.

Lemma join_cons (sep x : string) (l : list string) :
  l <> [] -> JS.join sep (x :: l) = x ++ sep ++ JS.join sep l.
Proof.
  destruct l; [contradiction | reflexivity].
Qed.

Lemma join_app (sep : string) (l1 l2 : list string) :
  l1 <> [] -> l2 <> [] ->
  JS.join sep (l1 ++ l2) = JS.join sep l1 ++ sep ++ JS.join sep l2.
Proof.
  intros nonempty1 nonempty2.
  induction l1 as [| x l1 IH]; [contradiction |].
  destruct l1 as [| y l1].
  - cbn [app]. now rewrite join_cons.
  - change ((x :: y :: l1) ++ l2)%list with (x :: ((y :: l1) ++ l2))%list.
    rewrite join_cons by discriminate.
    rewrite IH by discriminate.
    rewrite (join_cons sep x (y :: l1)) by discriminate.
    now rewrite !string_app_assoc.
Qed.

Lemma join_head_length (sep x : string) (l : list string) :
  (String.length x <= String.length (JS.join sep (x :: l)))%nat.
Proof.
  destruct l as [| y l].
  - cbn. lia.
  - rewrite join_cons by discriminate. rewrite string_length_app. lia.
Qed.

(** ** The intro grows with the snippets *)

Lemma commentLine_empty_shortest (languageConfig : option LanguageConfig.t)
    (line : string) :
  (String.length (commentLine languageConfig "")
   <= String.length (commentLine languageConfig line))%nat.
Proof.
  destruct languageConfig as [config |]; cbn; [| lia].
  rewrite !string_length_app. cbn. lia.
Qed.

(** One block more does not make the intro shorter. *)
Lemma introString_grows (languageConfig : option LanguageConfig.t)
    (intro : list string) (block : string) :
  (String.length (introString languageConfig intro)
   <= String.length (introString languageConfig (intro ++ [block])))%nat.
Proof.
  unfold introString. rewrite !string_length_app.
  apply Nat.add_le_mono_r.
  destruct intro as [| first intro].
  - cbn [app JS.join String.concat JS.split_lf map].
    pose proof (split_lf_nonempty block) as nonempty.
    destruct (JS.split_lf block) as [| piece pieces]; [contradiction |].
    cbn [map].
    etransitivity; [apply (commentLine_empty_shortest languageConfig piece) |].
    apply join_head_length.
  - rewrite join_app by discriminate.
    change (JS.join (LF ++ LF) [block]) with block.
    rewrite string_app_assoc, split_lf_app_lf, map_app.
    rewrite join_app.
    + rewrite string_length_app. lia.
    + intros empty. apply map_eq_nil in empty.
      now apply split_lf_nonempty in empty.
    + intros empty. apply map_eq_nil in empty.
      now apply split_lf_nonempty in empty.
Qed.

Section PromptGrowth.

Variable E : Collaborators.
Variable this : FireworksProvider.t.

(** Every infilling format holds the intro once, so the length of a prompt
    is the length of its intro and of the prompt without intro. *)
Lemma createInfillingPrompt_length (filename intro prefix suffix : string) :
  String.length (createInfillingPrompt E this filename intro prefix suffix)
  = (String.length intro
     + String.length (createInfillingPrompt E this filename "" prefix suffix))%nat.
Proof.
  unfold createInfillingPrompt.
  destruct (isStarCoderFamily _); [| destruct (isLlamaCode _);
    [| destruct (String.eqb _ _)]];
    rewrite !string_length_app; cbn [String.length]; lia.
Qed.

Lemma nextPrompt_grows (intro : list string) (block : string) :
  JS.length (nextPrompt E this intro)
  <= JS.length (nextPrompt E this (intro ++ [block])).
Proof.
  unfold nextPrompt, JS.length. cbv zeta.
  rewrite (createInfillingPrompt_length _ (introString _ intro)).
  rewrite (createInfillingPrompt_length _ (introString _ (intro ++ [block]))).
  pose proof (introString_grows (getLanguageConfig E (languageId this))
                intro block).
  lia.
Qed.

(** The candidate with one snippet more is not shorter. *)
Lemma candidate_grows (snippets : list ContextSnippet.t) (k : nat) :
  JS.length (candidate E this snippets k)
  <= JS.length (candidate E this snippets (S k)).
Proof.
  unfold candidate.
  destruct (Nat.lt_ge_cases k (List.length snippets)) as [inside | outside].
  - destruct (nth_error snippets k) as [snippet |] eqn:at_k.
    + assert (more : firstn (S k) snippets = (firstn k snippets ++ [snippet])%list).
      { clear inside. revert k at_k.
        induction snippets as [| s snippets IH]; intros [| k] at_k;
          try discriminate.
        - injection at_k as ->. reflexivity.
        - cbn [firstn app]. f_equal. apply IH. exact at_k. }
      rewrite more, map_app, app_assoc. apply nextPrompt_grows.
    + apply nth_error_None in at_k. lia.
  - rewrite !firstn_all2 by lia. lia.
Qed.

Lemma candidate_monotone (snippets : list ContextSnippet.t) (j k : nat) :
  (j <= k)%nat ->
  JS.length (candidate E this snippets j) <= JS.length (candidate E this snippets k).
Proof.
  induction 1 as [| k _ IH]; [lia |].
  pose proof (candidate_grows snippets k). lia.
Qed.

End PromptGrowth.

(** ** The prompt that is returned *)

Section PromptResult.

Variable E : Collaborators.
Variable this : FireworksProvider.t.

(** When the candidate without snippets fits, [createPrompt] returns a
    candidate, every candidate up to it fits and the next one, if there is
    one, does not. *)
Lemma createPrompt_accepted (snippets : list ContextSnippet.t) :
  JS.length (candidate E this snippets 0) < this.(FireworksProvider.promptChars) ->
  exists k, (k <= List.length snippets)%nat
    /\ createPrompt E this snippets = candidate E this snippets k
    /\ (forall j, (j <= k)%nat ->
          JS.length (candidate E this snippets j)
          < this.(FireworksProvider.promptChars))
    /\ (k = List.length snippets
        \/ this.(FireworksProvider.promptChars)
           <= JS.length (candidate E this snippets (S k))).
Proof.
  assert (zero : candidate E this snippets 0 = nextPrompt E this (initialIntro this)).
  { unfold candidate. cbn. now rewrite app_nil_r. }
  rewrite zero. intros short.
  unfold createPrompt. cbn [createPrompt_loop]. cbv zeta.
  destruct (Z.geb_spec (JS.length (nextPrompt E this (initialIntro this)))
              (FireworksProvider.promptChars this)) as [long | _]; [lia |].
  destruct (createPrompt_loop_last_fit E this snippets (initialIntro this))
    as (k & Hk & Hres & Hfit & Hstop).
  exists k. repeat split; try assumption.
  intros [| j] Hj.
  - rewrite zero. exact short.
  - apply Hfit. lia.
Qed.

(** The loop returns the prompt it was given or the candidate of some
    intro. *)
Lemma createPrompt_loop_result (iterations : list (option ContextSnippet.t)) :
  forall intro prompt,
    createPrompt_loop E this iterations intro prompt = prompt
    \/ exists intro',
         createPrompt_loop E this iterations intro prompt = nextPrompt E this intro'.
Proof.
  induction iterations as [| iteration iterations IH]; intros intro prompt.
  - left. reflexivity.
  - cbn [createPrompt_loop]. cbv zeta.
    set (intro' := match iteration with
                   | Some snippet => _
                   | None => intro
                   end).
    destruct (JS.length (nextPrompt E this intro')
              >=? FireworksProvider.promptChars this).
    + left. reflexivity.
    + destruct (IH intro' (nextPrompt E this intro')) as [-> | [intro'' ->]];
        right; eauto.
Qed.

End PromptResult.

(** X1. The candidate prompts do not get shorter as snippets are added: a
    candidate with at least as many snippets is at least as long. *)
Theorem candidate_length_nondecreasing (E : Collaborators)
    (this : FireworksProvider.t) (snippets : list ContextSnippet.t) (j k : nat) :
  (j <= k)%nat ->
  JS.length (candidate E this snippets j) <= JS.length (candidate E this snippets k).
Proof.
  apply candidate_monotone.
Qed.

Lemma candidate_length_nondecreasing_witness :
  (0 <= 1)%nat
  /\ JS.length (candidate Sample.collaborators Sample.withinBudget [Sample.snippet] 0)
     <= JS.length
          (candidate Sample.collaborators Sample.withinBudget [Sample.snippet] 1).
Proof.
  split; [lia |].
  apply (candidate_length_nondecreasing Sample.collaborators Sample.withinBudget
           [Sample.snippet] 0 1).
  lia.
Defined.

(** X2. When the candidate without snippets fits the budget,
    [createPrompt] returns the candidate with the greatest number of
    snippets that fits: a candidate fits exactly when it has no more
    snippets than the one that is returned. *)
Theorem createPrompt_greatest_fit (E : Collaborators)
    (this : FireworksProvider.t) (snippets : list ContextSnippet.t) :
  JS.length (candidate E this snippets 0) < this.(FireworksProvider.promptChars) ->
  exists k, (k <= List.length snippets)%nat
    /\ createPrompt E this snippets = candidate E this snippets k
    /\ forall j, (j <= List.length snippets)%nat ->
         (JS.length (candidate E this snippets j)
          < this.(FireworksProvider.promptChars)
          <-> (j <= k)%nat).
Proof.
  intros short.
  destruct (createPrompt_accepted E this snippets short)
    as (k & Hk & Hres & Hfit & Hstop).
  exists k. split; [exact Hk | split; [exact Hres |]].
  intros j Hj. split; [| apply Hfit].
  intros fits. destruct Hstop as [-> | long]; [exact Hj |].
  destruct (Nat.le_gt_cases j k) as [le | gt]; [exact le |].
  pose proof (candidate_monotone E this snippets (S k) j gt). lia.
Qed.

Lemma createPrompt_greatest_fit_witness :
  exists k, (k <= 1)%nat
    /\ createPrompt Sample.collaborators Sample.withinBudget [Sample.snippet]
       = candidate Sample.collaborators Sample.withinBudget [Sample.snippet] k
    /\ forall j, (j <= 1)%nat ->
         (JS.length
            (candidate Sample.collaborators Sample.withinBudget [Sample.snippet] j)
          < 7168
          <-> (j <= k)%nat).
Proof.
  apply (createPrompt_greatest_fit Sample.collaborators Sample.withinBudget
           [Sample.snippet]).
  vm_compute. reflexivity.
Defined.

(** X3. A prompt that is not empty has the infilling format of the model
    family around the whole document prefix and the suffix from its first
    line break on: the fill-in-the-middle format for a StarCoder model,
    and the prefix, suffix and middle format for a Llama Code model. *)
Theorem prompt_format (E : Collaborators) (this : FireworksProvider.t)
    (snippets : list ContextSnippet.t) :
  (isStarCoderFamily this.(FireworksProvider.model) = true ->
   createPrompt E this snippets = ""
   \/ exists intro,
        createPrompt E this snippets
        = "<filename>" ++ asRelativePath E (fileName this) ++ "<fim_prefix>"
            ++ intro ++ docPrefix this ++ "<fim_suffix>"
            ++ getSuffixAfterFirstNewline (docSuffix this) ++ "<fim_middle>")
  /\ (isStarCoderFamily this.(FireworksProvider.model) = false ->
      isLlamaCode this.(FireworksProvider.model) = true ->
      createPrompt E this snippets = ""
      \/ exists intro,
           createPrompt E this snippets
           = "<PRE> " ++ intro ++ docPrefix this ++ " <SUF>"
               ++ getSuffixAfterFirstNewline (docSuffix this) ++ " <MID>").
Proof.
  unfold createPrompt.
  destruct (createPrompt_loop_result E this (None :: map Some snippets)
              (initialIntro this) "") as [-> | [intro ->]].
  - split; intros; left; reflexivity.
  - unfold nextPrompt, createInfillingPrompt. cbv zeta.
    split.
    + intros ->. right. eexists. reflexivity.
    + intros -> ->. right. eexists. reflexivity.
Qed.

Lemma prompt_format_witness :
  (createPrompt Sample.collaborators Sample.withinBudget [Sample.snippet] = ""
   \/ exists intro,
        createPrompt Sample.collaborators Sample.withinBudget [Sample.snippet]
        = "<filename>src/a.ts<fim_prefix>" ++ intro ++ "let a = "
            ++ "<fim_suffix><fim_middle>")
  /\ (createPrompt Sample.collaborators Sample.llamaPython [Sample.snippet] = ""
      \/ exists intro,
           createPrompt Sample.collaborators Sample.llamaPython [Sample.snippet]
           = "<PRE> " ++ intro ++ "let a = " ++ " <SUF>" ++ " <MID>").
Proof.
  split.
  - exact (proj1 (prompt_format Sample.collaborators Sample.withinBudget
                    [Sample.snippet]) eq_refl).
  - exact (proj2 (prompt_format Sample.collaborators Sample.llamaPython
                    [Sample.snippet]) eq_refl eq_refl).
Defined.

(** ** More about the log of an invocation *)

Lemma fetchImpls_app (log1 log2 : list Call) :
  fetchImpls (log1 ++ log2) = (fetchImpls log1 ++ fetchImpls log2)%list.
Proof.
  induction log1 as [| call log1 IH]; [reflexivity |].
  destruct call; cbn; now rewrite ?IH.
Qed.

Lemma tracerParamsCalls_app (log1 log2 : list Call) :
  tracerParamsCalls (log1 ++ log2)
  = (tracerParamsCalls log1 ++ tracerParamsCalls log2)%list.
Proof.
  induction log1 as [| call log1 IH]; [reflexivity |].
  destruct call; cbn; now rewrite ?IH.
Qed.

Lemma tracerResultCalls_app (log1 log2 : list Call) :
  tracerResultCalls (log1 ++ log2)
  = (tracerResultCalls log1 ++ tracerResultCalls log2)%list.
Proof.
  induction log1 as [| call log1 IH]; [reflexivity |].
  destruct call; cbn; now rewrite ?IH.
Qed.

Lemma projections_repeat_fetch (impl : FetchImpl)
    (requestParams : CodeCompletionsParams.t) (k : nat) :
  fetchImpls (repeat (fetch impl requestParams) k) = repeat impl k
  /\ tracerParamsCalls (repeat (fetch impl requestParams) k) = []
  /\ tracerResultCalls (repeat (fetch impl requestParams) k) = [].
Proof.
  induction k as [| k (impls & params & results)]; cbn.
  - repeat split.
  - rewrite impls. repeat split; assumption.
Qed.

Section Delivery.

Variable this : FireworksProvider.t.
Variable tracer : bool.

(** What the arrivals add to the log: no fetch, nothing for
    [tracer.params], and for [tracer.result] what the caller gets, when a
    tracer is attached. *)
Lemma deliver_projections (arrivals : list InlineCompletionItemWithAnalytics.t) :
  forall completions,
    fetchImpls (deliver this tracer completions arrivals) = []
    /\ tracerParamsCalls (deliver this tracer completions arrivals) = []
    /\ tracerResultCalls (deliver this tracer completions arrivals)
       = if tracer then readyCalls (deliver this tracer completions arrivals)
         else [].
Proof.
  induction arrivals as [| completion arrivals IH]; intros completions.
  - cbn. destruct tracer; repeat split.
  - cbn [deliver]. unfold onCompletionReadyImpl.
    destruct (IH (completions ++ [completion])%list) as (impls & params & results).
    destruct (List.length (completions ++ [completion])
              =? ProviderOptions.n (FireworksProvider.options this))%nat.
    + rewrite fetchImpls_app, tracerParamsCalls_app, tracerResultCalls_app,
        readyCalls_app, impls, params, results.
      destruct tracer; repeat split.
    + cbn [app]. repeat split; assumption.
Qed.

(** The caller gets the first [n] arrivals, once the [n]-th has arrived. *)
Lemma deliver_first_n (arrivals : list InlineCompletionItemWithAnalytics.t) :
  forall completions,
    readyCalls (deliver this tracer completions arrivals)
    = let n := this.(FireworksProvider.options).(ProviderOptions.n) in
      if (List.length completions <? n)%nat
         && (n <=? List.length completions + List.length arrivals)%nat
      then [(completions ++ firstn (n - List.length completions) arrivals)%list]
      else [].
Proof.
  cbv zeta.
  induction arrivals as [| completion arrivals IH]; intros completions.
  - cbn [deliver readyCalls List.length].
    destruct (Nat.ltb_spec (List.length completions)
                (ProviderOptions.n (FireworksProvider.options this)));
      destruct (Nat.leb_spec (ProviderOptions.n (FireworksProvider.options this))
                  (List.length completions + 0));
      cbn; try reflexivity; lia.
  - cbn [deliver].
    pose proof (onCompletionReadyImpl_spec this tracer completions completion)
      as step.
    destruct (onCompletionReadyImpl this tracer completions completion)
      as [completions' calls].
    destruct step as (-> & _ & ready).
    rewrite readyCalls_app, ready, IH, List.length_app. cbn [List.length].
    set (n := ProviderOptions.n (FireworksProvider.options this)).
    destruct (Nat.eqb_spec (List.length completions + 1) n) as [full | notfull].
    + destruct (Nat.ltb_spec (List.length completions + 1) n); [lia |].
      destruct (Nat.ltb_spec (List.length completions) n); [| lia].
      destruct (Nat.leb_spec n (List.length completions + S (List.length arrivals)));
        [| lia].
      cbn [andb app].
      replace (n - List.length completions)%nat with 1%nat by lia.
      reflexivity.
    + cbn [app].
      destruct (Nat.ltb_spec (List.length completions + 1) n) as [below | above].
      * destruct (Nat.ltb_spec (List.length completions) n); [| lia].
        replace (List.length completions + 1 + List.length arrivals)%nat
          with (List.length completions + S (List.length arrivals))%nat by lia.
        destruct (n <=? _)%nat; [| reflexivity].
        cbn [andb].
        replace (n - List.length completions)%nat
          with (S (n - (List.length completions + 1)))%nat by lia.
        cbn [firstn]. now rewrite <- app_assoc.
      * destruct (Nat.ltb_spec (List.length completions) n); [lia |].
        reflexivity.
Qed.

End Delivery.

Section Invocation.

Variable E : Collaborators.
Variable this : FireworksProvider.t.
Variable snippets : list ContextSnippet.t.
Variable tracer : bool.
Variable arrivals : list InlineCompletionItemWithAnalytics.t.

Lemma log_unfolded :
  generateCompletions_log E this snippets tracer arrivals
  = ((if tracer then [tracer_params (sentRequestParams E this snippets)] else [])
       ++ repeat
            (fetch
               (if this.(FireworksProvider.options)
                       .(ProviderOptions.dynamicMultilineCompletions)
                then fetchAndProcessDynamicMultilineCompletions
                else fetchAndProcessCompletions)
               (sentRequestParams E this snippets))
            this.(FireworksProvider.options).(ProviderOptions.n)
       ++ deliver this tracer [] arrivals)%list.
Proof.
  unfold generateCompletions_log.
  rewrite generateCompletions_awaiting. cbv zeta.
  now rewrite <- app_assoc.
Qed.

Lemma log_fetchCalls :
  fetchCalls (generateCompletions_log E this snippets tracer arrivals)
  = repeat (sentRequestParams E this snippets)
      this.(FireworksProvider.options).(ProviderOptions.n).
Proof.
  rewrite log_unfolded, !fetchCalls_app, fetchCalls_repeat_fetch, deliver_no_fetch.
  rewrite app_nil_r. destruct tracer; reflexivity.
Qed.

Lemma log_fetchImpls :
  fetchImpls (generateCompletions_log E this snippets tracer arrivals)
  = repeat
      (if this.(FireworksProvider.options)
              .(ProviderOptions.dynamicMultilineCompletions)
       then fetchAndProcessDynamicMultilineCompletions
       else fetchAndProcessCompletions)
      this.(FireworksProvider.options).(ProviderOptions.n).
Proof.
  rewrite log_unfolded, !fetchImpls_app.
  rewrite (proj1 (projections_repeat_fetch _ _ _)).
  rewrite (proj1 (deliver_projections this tracer arrivals [])).
  rewrite app_nil_r. destruct tracer; reflexivity.
Qed.

Lemma log_readyCalls :
  readyCalls (generateCompletions_log E this snippets tracer arrivals)
  = readyCalls (deliver this tracer [] arrivals).
Proof.
  rewrite log_unfolded, !readyCalls_app, readyCalls_repeat_fetch.
  destruct tracer; reflexivity.
Qed.

Lemma log_tracerCalls :
  tracerParamsCalls (generateCompletions_log E this snippets tracer arrivals)
  = (if tracer then [sentRequestParams E this snippets] else [])
  /\ tracerResultCalls (generateCompletions_log E this snippets tracer arrivals)
     = if tracer
       then readyCalls (generateCompletions_log E this snippets tracer arrivals)
       else [].
Proof.
  rewrite log_readyCalls, log_unfolded.
  rewrite !tracerParamsCalls_app, !tracerResultCalls_app.
  destruct (projections_repeat_fetch
              (if this.(FireworksProvider.options)
                      .(ProviderOptions.dynamicMultilineCompletions)
               then fetchAndProcessDynamicMultilineCompletions
               else fetchAndProcessCompletions)
              (sentRequestParams E this snippets)
              this.(FireworksProvider.options).(ProviderOptions.n))
    as (_ & params & results).
  destruct (deliver_projections this tracer arrivals [])
    as (_ & params' & results').
  rewrite params, results, params', results'.
  destruct tracer; split; reflexivity.
Qed.

(** The message of the resolved parameters is the prompt. *)
Lemma resolved_messages :
  (resolvedRequestParams E this snippets).(CodeCompletionsParams.messages)
  = [ {| Message.speaker := human;
         Message.text := createPrompt E this snippets |} ].
Proof.
  unfold resolvedRequestParams, JS.truthy.
  destruct (timeouts_multiline this) as [m |],
           (timeouts_singleline this) as [s |],
           (useExtendedGeneration this);
    try destruct (negb (m =? 0)); try destruct (negb (s =? 0)); reflexivity.
Qed.

End Invocation.

(** X4. Every invocation of [generateCompletions] starts exactly [n]
    fetches, whatever timeouts are configured; they all get the same
    request, and they all enter the pipeline at the dynamic multiline
    entry point when that mode is on and at the standard one otherwise. *)
Theorem exactly_n_fetches (E : Collaborators) (this : FireworksProvider.t)
    (snippets : list ContextSnippet.t) (tracer : bool)
    (arrivals : list InlineCompletionItemWithAnalytics.t) :
  let n := this.(FireworksProvider.options).(ProviderOptions.n) in
  let log := generateCompletions_log E this snippets tracer arrivals in
  List.length (fetchCalls log) = n
  /\ fetchCalls log = repeat (sentRequestParams E this snippets) n
  /\ fetchImpls log
     = repeat
         (if this.(FireworksProvider.options)
                 .(ProviderOptions.dynamicMultilineCompletions)
          then fetchAndProcessDynamicMultilineCompletions
          else fetchAndProcessCompletions)
         n.
Proof.
  cbv zeta. rewrite log_fetchCalls, log_fetchImpls, repeat_length.
  repeat split.
Qed.

(** X5. Every request that is sent holds one message, from the human
    speaker, and its text is the prompt that [createPrompt] returns for
    the snippets. *)
Theorem request_carries_prompt (E : Collaborators) (this : FireworksProvider.t)
    (snippets : list ContextSnippet.t) (tracer : bool)
    (arrivals : list InlineCompletionItemWithAnalytics.t)
    (requestParams : CodeCompletionsParams.t) :
  In requestParams
    (fetchCalls (generateCompletions_log E this snippets tracer arrivals)) ->
  requestParams.(CodeCompletionsParams.messages)
  = [ {| Message.speaker := human;
         Message.text := createPrompt E this snippets |} ].
Proof.
  intros sent. rewrite log_fetchCalls in sent. apply repeat_spec in sent.
  subst requestParams. unfold sentRequestParams.
  destruct (ProviderOptions.dynamicMultilineCompletions _);
    apply resolved_messages.
Qed.

Lemma request_carries_prompt_witness :
  In (sentRequestParams Sample.collaborators Sample.dynamicMultilineTimeout
        [Sample.snippet])
    (fetchCalls
       (generateCompletions_log Sample.collaborators
          Sample.dynamicMultilineTimeout [Sample.snippet] false []))
  /\ (sentRequestParams Sample.collaborators Sample.dynamicMultilineTimeout
        [Sample.snippet]).(CodeCompletionsParams.messages)
     = [ {| Message.speaker := human;
            Message.text :=
              createPrompt Sample.collaborators Sample.dynamicMultilineTimeout
                [Sample.snippet] |} ].
Proof.
  assert (sent :
            In (sentRequestParams Sample.collaborators
                  Sample.dynamicMultilineTimeout [Sample.snippet])
              (fetchCalls
                 (generateCompletions_log Sample.collaborators
                    Sample.dynamicMultilineTimeout [Sample.snippet] false []))).
  { vm_compute. left. reflexivity. }
  split; [exact sent |].
  exact (request_carries_prompt Sample.collaborators
           Sample.dynamicMultilineTimeout [Sample.snippet] false [] _ sent).
Defined.

(** X6. The caller's [onCompletionReady] is called exactly when at least
    [n] completions arrive and [n] is not zero, and it then gets the first
    [n] arrivals in the order of their arrival; with fewer arrivals, or
    with [n] zero, it is not called at all. *)
Theorem onCompletionReady_first_n (E : Collaborators)
    (this : FireworksProvider.t) (snippets : list ContextSnippet.t)
    (tracer : bool) (arrivals : list InlineCompletionItemWithAnalytics.t) :
  let n := this.(FireworksProvider.options).(ProviderOptions.n) in
  readyCalls (generateCompletions_log E this snippets tracer arrivals)
  = if (1 <=? n)%nat && (n <=? List.length arrivals)%nat
    then [firstn n arrivals]
    else [].
Proof.
  cbv zeta. rewrite log_readyCalls, deliver_first_n. cbv zeta.
  cbn [List.length app Nat.add]. rewrite Nat.sub_0_r.
  destruct (ProviderOptions.n (FireworksProvider.options this)); reflexivity.
Qed.

(** X7. With a tracer, [tracer.params] is called once, with the request
    that the fetches get, and [tracer.result] is called with the same
    lists as the caller's [onCompletionReady]; without one, neither is
    called. *)
Theorem tracer_sees_request_and_result (E : Collaborators)
    (this : FireworksProvider.t) (snippets : list ContextSnippet.t)
    (tracer : bool) (arrivals : list InlineCompletionItemWithAnalytics.t) :
  let log := generateCompletions_log E this snippets tracer arrivals in
  tracerParamsCalls log
  = (if tracer then [sentRequestParams E this snippets] else [])
  /\ tracerResultCalls log = (if tracer then readyCalls log else []).
Proof.
  apply log_tracerCalls.
Qed.

(** X8. Outside extended generation every request that is sent has the
    single-line preset: at most 30 tokens, the line feed as the only stop
    sequence, the timeout of 5000 ms when no single-line timeout is
    configured, and the standard entry point of the pipeline. *)
Theorem single_line_request (E : Collaborators) (this : FireworksProvider.t)
    (snippets : list ContextSnippet.t) (tracer : bool)
    (arrivals : list InlineCompletionItemWithAnalytics.t)
    (requestParams : CodeCompletionsParams.t) :
  useExtendedGeneration this = false ->
  In requestParams
    (fetchCalls (generateCompletions_log E this snippets tracer arrivals)) ->
  requestParams.(CodeCompletionsParams.maxTokensToSample) = 30
  /\ requestParams.(CodeCompletionsParams.stopSequences) = Some [LF]
  /\ (timeouts_singleline this = None ->
      requestParams.(CodeCompletionsParams.timeoutMs) = 5000)
  /\ Forall (eq fetchAndProcessCompletions)
       (fetchImpls (generateCompletions_log E this snippets tracer arrivals)).
Proof.
  intros single sent. rewrite log_fetchCalls in sent. apply repeat_spec in sent.
  rewrite log_fetchImpls.
  assert (off : this.(FireworksProvider.options)
                    .(ProviderOptions.dynamicMultilineCompletions) = false).
  { unfold useExtendedGeneration in single. cbv zeta in single.
    destruct (ProviderOptions.multiline _),
             (ProviderOptions.dynamicMultilineCompletions _);
      try discriminate; reflexivity. }
  unfold sentRequestParams in sent. rewrite off in sent. subst requestParams.
  rewrite off.
  destruct (resolved_other_fields E this snippets) as (tokens & stops & _).
  rewrite tokens, stops, resolved_timeoutMs, single. cbv zeta.
  repeat split.
  - intros ->. destruct (timeouts_multiline this) as [m |]; [| reflexivity].
    now rewrite andb_false_r.
  - apply Forall_forall. intros impl isin. apply repeat_spec in isin. auto.
Qed.

Lemma single_line_request_witness :
  (resolvedRequestParams Sample.collaborators Sample.withinBudget [])
    .(CodeCompletionsParams.maxTokensToSample) = 30
  /\ (resolvedRequestParams Sample.collaborators Sample.withinBudget [])
       .(CodeCompletionsParams.stopSequences) = Some [LF]
  /\ (resolvedRequestParams Sample.collaborators Sample.withinBudget [])
       .(CodeCompletionsParams.timeoutMs) = 5000.
Proof.
  assert (sent :
            In (resolvedRequestParams Sample.collaborators Sample.withinBudget [])
              (fetchCalls
                 (generateCompletions_log Sample.collaborators Sample.withinBudget
                    [] false []))).
  { vm_compute. left. reflexivity. }
  destruct (single_line_request Sample.collaborators Sample.withinBudget [] false
              [] _ eq_refl sent) as (tokens & stops & timeout & _).
  split; [exact tokens | split; [exact stops | exact (timeout eq_refl)]].
Defined.

(** X9. In dynamic multiline mode every request that is sent has no stop
    sequences, asks for at most 256 tokens, has the timeout of 15000 ms,
    and enters the pipeline at the dynamic multiline entry point. *)
Theorem dynamic_multiline_request (E : Collaborators)
    (this : FireworksProvider.t) (snippets : list ContextSnippet.t)
    (tracer : bool) (arrivals : list InlineCompletionItemWithAnalytics.t)
    (requestParams : CodeCompletionsParams.t) :
  this.(FireworksProvider.options).(ProviderOptions.dynamicMultilineCompletions)
  = true ->
  In requestParams
    (fetchCalls (generateCompletions_log E this snippets tracer arrivals)) ->
  requestParams.(CodeCompletionsParams.stopSequences) = None
  /\ requestParams.(CodeCompletionsParams.maxTokensToSample) = 256
  /\ requestParams.(CodeCompletionsParams.timeoutMs) = 15000
  /\ Forall (eq fetchAndProcessDynamicMultilineCompletions)
       (fetchImpls (generateCompletions_log E this snippets tracer arrivals)).
Proof.
  intros dynamic sent. rewrite log_fetchCalls in sent. apply repeat_spec in sent.
  rewrite log_fetchImpls.
  unfold sentRequestParams in sent. rewrite dynamic in sent. subst requestParams.
  rewrite dynamic. repeat split.
  apply Forall_forall. intros impl isin. apply repeat_spec in isin. auto.
Qed.

Lemma dynamic_multiline_request_witness :
  (sentRequestParams Sample.collaborators Sample.dynamicMultilineTimeout [])
    .(CodeCompletionsParams.stopSequences) = None
  /\ (sentRequestParams Sample.collaborators Sample.dynamicMultilineTimeout [])
       .(CodeCompletionsParams.maxTokensToSample) = 256
  /\ (sentRequestParams Sample.collaborators Sample.dynamicMultilineTimeout [])
       .(CodeCompletionsParams.timeoutMs) = 15000.
Proof.
  assert (sent :
            In (sentRequestParams Sample.collaborators
                  Sample.dynamicMultilineTimeout [])
              (fetchCalls
                 (generateCompletions_log Sample.collaborators
                    Sample.dynamicMultilineTimeout [] false []))).
  { vm_compute. left. reflexivity. }
  destruct (dynamic_multiline_request Sample.collaborators
              Sample.dynamicMultilineTimeout [] false [] _ eq_refl sent)
    as (stops & tokens & timeout & _).
  split; [exact stops | split; [exact tokens | exact timeout]].
Defined.

(** ** The providers of a configuration *)

Lemma lookup_known (key : string) (table : list (string * string)) :
  In key (map fst table) ->
  exists value, lookup key table = Some value /\ In value (map snd table).
Proof.
  induction table as [| [k v] table IH]; [contradiction |].
  cbn [map fst snd lookup In].
  destruct (String.eqb_spec key k) as [-> | different].
  - intros _. exists v. auto.
  - intros [same | known]; [congruence |].
    destruct (IH known) as (value & found & isin). exists value. auto.
Qed.

(** A configuration holds the hybrid model or a key of the table, and its
    providers are built from that model, its token budget and the given
    timeouts. *)
Lemma createProviderConfig_resolved (E : Collaborators)
    (model : option string) (timeouts : option AutocompleteTimeouts.t)
    (config : ProviderConfig.t E) :
  createProviderConfig E model timeouts = Ok config ->
  In (ProviderConfig.model config) ("starcoder-hybrid" :: map fst MODEL_MAP)
  /\ config
     = {| ProviderConfig.create := fun options =>
            new_FireworksProvider E options
              {| FireworksOptions.model := ProviderConfig.model config;
                 FireworksOptions.maxContextTokens :=
                   getMaxContextTokens (ProviderConfig.model config);
                 FireworksOptions.timeouts := timeouts |};
          ProviderConfig.contextSizeHints :=
            standardContextSizeHints E
              (getMaxContextTokens (ProviderConfig.model config));
          ProviderConfig.identifier := PROVIDER_IDENTIFIER;
          ProviderConfig.model := ProviderConfig.model config |}.
Proof.
  unfold createProviderConfig.
  destruct (isNull model || strictEq model "") eqn:unset.
  - intros [= <-]. split; [left |]; reflexivity.
  - destruct (strictEq model "starcoder-hybrid").
    + intros [= <-]. split; [left |]; reflexivity.
    + destruct (hasOwnProperty MODEL_MAP (toString model)) eqn:own;
        [| discriminate].
      destruct model as [m |]; [| discriminate].
      intros [= <-]. split; [| reflexivity].
      right. now apply hasOwnProperty_In.
Qed.

Lemma known_model_budget (model : string) :
  In model ("starcoder-hybrid" :: map fst MODEL_MAP) ->
  getMaxContextTokens model = 2048.
Proof.
  cbn. intros known.
  repeat (destruct known as [<- | known]; [reflexivity |]). contradiction.
Qed.

Lemma known_model_template (model : string) :
  In model ("starcoder-hybrid" :: map fst MODEL_MAP) ->
  isStarCoderFamily model
  || isLlamaCode model
  || String.eqb model "mistral-7b-instruct-4k" = true.
Proof.
  cbn. intros known.
  repeat (destruct known as [<- | known]; [reflexivity |]). contradiction.
Qed.

(** X10. Every configuration that [createProviderConfig] returns has the
    token budget 2048: its providers have the character budget of 1792
    tokens, its context size hints are the standard ones for 2048 tokens,
    and its identifier is "fireworks".  The default budget of 1200 tokens
    is never used. *)
Theorem configured_budget (E : Collaborators) (model : option string)
    (timeouts : option AutocompleteTimeouts.t) (config : ProviderConfig.t E)
    (options : ProviderOptions.t) :
  createProviderConfig E model timeouts = Ok config ->
  (ProviderConfig.create config options).(FireworksProvider.promptChars)
  = tokensToChars E 1792
  /\ ProviderConfig.contextSizeHints config = standardContextSizeHints E 2048
  /\ ProviderConfig.identifier config = "fireworks".
Proof.
  intros created.
  destruct (createProviderConfig_resolved E model timeouts config created)
    as (known & ->).
  cbn. rewrite (known_model_budget _ known). repeat split.
Qed.

Lemma configured_budget_witness :
  exists config,
    createProviderConfig Sample.collaborators (Some "llama-code-13b") None
    = Ok config
    /\ (ProviderConfig.create config
          (Sample.options "python" "let a = " "" false false false 1))
         .(FireworksProvider.promptChars) = 7168
    /\ ProviderConfig.contextSizeHints config = 2048
    /\ ProviderConfig.identifier config = "fireworks".
Proof.
  eexists. split; [reflexivity |].
  exact (configured_budget Sample.collaborators (Some "llama-code-13b") None _
           (Sample.options "python" "let a = " "" false false false 1) eq_refl).
Defined.

(** X11. The model of every configuration has an infilling format: it is
    of the StarCoder family, of the Llama Code family, or the Mistral
    instruct model, so the providers of a configuration never fall back to
    the prompt without infilling markers. *)
Theorem configured_model_has_format (E : Collaborators) (model : option string)
    (timeouts : option AutocompleteTimeouts.t) (config : ProviderConfig.t E)
    (options : ProviderOptions.t) :
  createProviderConfig E model timeouts = Ok config ->
  let this := ProviderConfig.create config options in
  isStarCoderFamily this.(FireworksProvider.model)
  || isLlamaCode this.(FireworksProvider.model)
  || String.eqb this.(FireworksProvider.model) "mistral-7b-instruct-4k" = true.
Proof.
  intros created.
  destruct (createProviderConfig_resolved E model timeouts config created)
    as (known & ->).
  cbn. now apply known_model_template.
Qed.

Lemma configured_model_has_format_witness :
  exists config,
    createProviderConfig Sample.collaborators (Some "mistral-7b-instruct-4k") None
    = Ok config
    /\ isStarCoderFamily
         (ProviderConfig.create config
            (Sample.options "python" "" "" false false false 1))
           .(FireworksProvider.model)
       || isLlamaCode
            (ProviderConfig.create config
               (Sample.options "python" "" "" false false false 1))
              .(FireworksProvider.model)
       || String.eqb
            (ProviderConfig.create config
               (Sample.options "python" "" "" false false false 1))
              .(FireworksProvider.model)
            "mistral-7b-instruct-4k"
       = true.
Proof.
  eexists. split; [reflexivity |].
  exact (configured_model_has_format Sample.collaborators
           (Some "mistral-7b-instruct-4k") None _
           (Sample.options "python" "" "" false false false 1) eq_refl).
Defined.

(** X12. Every request that a provider of a configuration sends names a
    backend model of the table: the model of a request is never
    undefined. For a model other than the hybrid one it is the entry of
    that model, whatever the mode. *)
Theorem configured_request_model (E : Collaborators) (model : option string)
    (timeouts : option AutocompleteTimeouts.t) (config : ProviderConfig.t E)
    (options : ProviderOptions.t) (snippets : list ContextSnippet.t)
    (tracer : bool) (arrivals : list InlineCompletionItemWithAnalytics.t)
    (requestParams : CodeCompletionsParams.t) :
  createProviderConfig E model timeouts = Ok config ->
  In requestParams
    (fetchCalls
       (generateCompletions_log E (ProviderConfig.create config options)
          snippets tracer arrivals)) ->
  (exists backend,
      requestParams.(CodeCompletionsParams.model) = Some backend
      /\ In backend (map snd MODEL_MAP))
  /\ (ProviderConfig.model config <> "starcoder-hybrid" ->
      requestParams.(CodeCompletionsParams.model)
      = lookup (ProviderConfig.model config) MODEL_MAP).
Proof.
  intros created sent.
  destruct (createProviderConfig_resolved E model timeouts config created)
    as (known & shape).
  rewrite log_fetchCalls in sent. apply repeat_spec in sent.
  set (this := ProviderConfig.create config options) in *.
  assert (same : this.(FireworksProvider.model) = ProviderConfig.model config).
  { subst this. rewrite shape. reflexivity. }
  assert (resolved : requestParams.(CodeCompletionsParams.model)
                     = (resolvedRequestParams E this snippets)
                         .(CodeCompletionsParams.model)).
  { subst requestParams. unfold sentRequestParams.
    destruct (ProviderOptions.dynamicMultilineCompletions _); reflexivity. }
  destruct (resolved_other_fields E this snippets) as (_ & _ & _ & _ & backend).
  rewrite resolved, backend, same. clear resolved backend sent.
  destruct (String.eqb_spec (ProviderConfig.model config) "starcoder-hybrid")
    as [hybrid | other].
  - split; [| contradiction].
    destruct (ProviderOptions.multiline _); eexists; split;
      try reflexivity; cbn; auto.
  - split; [| reflexivity].
    apply lookup_known. destruct known as [hybrid | known]; [congruence | exact known].
Qed.

Lemma configured_request_model_witness :
  exists config,
    createProviderConfig Sample.collaborators (Some "llama-code-13b") None
    = Ok config
    /\ (resolvedRequestParams Sample.collaborators
          (ProviderConfig.create config
             (Sample.options "python" "let a = " "" true false false 1)) [])
         .(CodeCompletionsParams.model)
       = Some "fireworks/accounts/fireworks/models/llama-v2-13b-code".
Proof.
  eexists. split; [reflexivity |].
  match goal with
  | |- CodeCompletionsParams.model (resolvedRequestParams ?E ?this ?snippets) = _ =>
      assert (sent :
                In (resolvedRequestParams E this snippets)
                  (fetchCalls (generateCompletions_log E this snippets false [])))
        by (rewrite log_fetchCalls; left; reflexivity);
      exact (eq_trans
               (proj2
                  (configured_request_model Sample.collaborators
                     (Some "llama-code-13b") None _
                     (Sample.options "python" "let a = " "" true false false 1)
                     [] false [] _ eq_refl sent)
                  ltac:(discriminate))
               eq_refl)
  end.
Defined.

(** ** The end-of-text markers *)

Lemma substring_skip (a x : string) (i n : nat) :
  String.substring (String.length a + i) n (a ++ x) = String.substring i n x.
Proof.
  induction a as [| c a IH]; cbn; [reflexivity | exact IH].
Qed.

Lemma substring_prefix (a x : string) :
  String.substring 0 (String.length a) (a ++ x) = a.
Proof.
  induction a as [| c a IH]; cbn.
  - destruct x; reflexivity.
  - now rewrite IH.
Qed.

Lemma occursAt_middle (pattern a b : string) :
  occursAt pattern (a ++ pattern ++ b) (String.length a).
Proof.
  unfold occursAt.
  rewrite <- (Nat.add_0_r (String.length a)) at 1.
  rewrite substring_skip. apply substring_prefix.
Qed.

(** The position that [indexOf] finds is the first occurrence. *)
Lemma index_first_occurrence (pattern a b : string) :
  pattern <> "" ->
  (forall i, (i < String.length a)%nat ->
     ~ occursAt pattern (a ++ pattern ++ b) i) ->
  String.index 0 pattern (a ++ pattern ++ b) = Some (String.length a).
Proof.
  intros nonempty first.
  destruct (String.index 0 pattern (a ++ pattern ++ b)) as [m |] eqn:found.
  - f_equal.
    destruct (Nat.lt_trichotomy m (String.length a)) as [before | [same | after]].
    + exfalso. apply (first m before).
      exact (index_correct1 _ _ _ _ found).
    + exact same.
    + exfalso.
      apply (index_correct2 _ _ _ _ found (String.length a)); [lia | exact after |].
      apply occursAt_middle.
  - exfalso.
    apply (index_correct3 0 (String.length a) _ _ found nonempty); [lia |].
    apply occursAt_middle.
Qed.

Lemma replace_first_occurrence (pattern replacement a b : string) :
  pattern <> "" ->
  (forall i, (i < String.length a)%nat ->
     ~ occursAt pattern (a ++ pattern ++ b) i) ->
  JSString.replace (a ++ pattern ++ b) pattern replacement
  = a ++ replacement ++ b.
Proof.
  intros nonempty first. unfold JSString.replace.
  rewrite index_first_occurrence by assumption.
  rewrite substring_prefix.
  rewrite !string_length_app.
  replace (String.length a + (String.length pattern + String.length b)
           - (String.length a + String.length pattern))%nat
    with (String.length b) by lia.
  rewrite substring_skip.
  rewrite <- (Nat.add_0_r (String.length pattern)).
  rewrite substring_skip, substring_all. reflexivity.
Qed.

Lemma replace_absent (pattern replacement s : string) :
  (forall i, ~ occursAt pattern s i) ->
  JSString.replace s pattern replacement = s.
Proof.
  intros absent. unfold JSString.replace.
  destruct (String.index 0 pattern s) as [m |] eqn:found; [| reflexivity].
  exfalso. apply (absent m). exact (index_correct1 _ _ _ _ found).
Qed.

(** X13. For a model of the StarCoder or the Llama Code family,
    [postProcess] takes the first end-of-text marker of the family out of
    the raw output and keeps all the rest, a later marker included. *)
Theorem postProcess_removes_first_marker (this : FireworksProvider.t)
    (a b : string) :
  let marker :=
    if isStarCoderFamily this.(FireworksProvider.model)
    then EOT_STARCODER else EOT_LLAMA_CODE in
  isStarCoderFamily this.(FireworksProvider.model)
  || isLlamaCode this.(FireworksProvider.model) = true ->
  (forall i, (i < String.length a)%nat ->
     ~ occursAt marker (a ++ marker ++ b) i) ->
  postProcess this (a ++ marker ++ b) = a ++ b.
Proof.
  cbv zeta. unfold postProcess.
  destruct (isStarCoderFamily _).
  - intros _ first. now apply replace_first_occurrence.
  - cbn [orb]. intros -> first. now apply replace_first_occurrence.
Qed.

Lemma postProcess_removes_first_marker_witness :
  postProcess Sample.withinBudget ("x = 1" ++ EOT_STARCODER ++ EOT_STARCODER)
  = "x = 1" ++ EOT_STARCODER.
Proof.
  apply (postProcess_removes_first_marker Sample.withinBudget "x = 1"
           EOT_STARCODER).
  - reflexivity.
  - intros i before.
    do 5 (destruct i as [| i]; [discriminate |]).
    cbn in before. lia.
Defined.

(** X14. Whatever the model, [postProcess] returns a raw output that
    holds neither end-of-text marker as it is. *)
Theorem postProcess_without_marker (this : FireworksProvider.t)
    (content : string) :
  (forall i, ~ occursAt EOT_STARCODER content i) ->
  (forall i, ~ occursAt EOT_LLAMA_CODE content i) ->
  postProcess this content = content.
Proof.
  intros starcoder llama. unfold postProcess.
  destruct (isStarCoderFamily _); [now apply replace_absent |].
  destruct (isLlamaCode _); [now apply replace_absent | reflexivity].
Qed.

Lemma postProcess_without_marker_witness :
  postProcess Sample.llamaPython "x" = "x".
Proof.
  apply (postProcess_without_marker Sample.llamaPython "x").
  - intros [| [| i]]; discriminate.
  - intros [| [| i]]; discriminate.
Defined.

(** ** The suffix, once more *)

Lemma getSuffixAfterFirstNewline_at_break (a b : string) :
  noLineBreak a -> getSuffixAfterFirstNewline (a ++ LF ++ b) = LF ++ b.
Proof.
  intros H. unfold getSuffixAfterFirstNewline, JS.indexOf.
  rewrite index_lf_first by assumption.
  destruct (Z.eqb_spec (Z.of_nat (String.length a)) (-1)) as [e | _]; [lia |].
  apply slice_drop_app.
Qed.

Lemma getSuffixAfterFirstNewline_no_break (s : string) :
  noLineBreak s -> getSuffixAfterFirstNewline s = "".
Proof.
  intros H. unfold getSuffixAfterFirstNewline, JS.indexOf.
  rewrite index_lf_none by assumption. reflexivity.
Qed.

(** X15. Truncating a suffix twice is the same as truncating it once, and
    the truncated suffix is a final part of the suffix that is preceded by
    text without a line break. *)
Theorem getSuffixAfterFirstNewline_idempotent (suffix : string) :
  getSuffixAfterFirstNewline (getSuffixAfterFirstNewline suffix)
  = getSuffixAfterFirstNewline suffix
  /\ exists line,
       noLineBreak line
       /\ (suffix = line ++ getSuffixAfterFirstNewline suffix
           \/ (suffix = line /\ getSuffixAfterFirstNewline suffix = "")).
Proof.
  destruct (first_line_break suffix) as [none | (a & b & none & ->)].
  - rewrite (getSuffixAfterFirstNewline_no_break suffix none).
    split; [reflexivity |]. exists suffix. auto.
  - rewrite (getSuffixAfterFirstNewline_at_break a b none).
    split.
    + apply (getSuffixAfterFirstNewline_at_break "" b).
      intros [| i]; discriminate.
    + exists a. auto.
Qed.

(** ** The memoized repository lookup *)

Lemma clientCalls_app (codebase : string) (log1 log2 : list Effect) :
  clientCalls codebase (log1 ++ log2)
  = (clientCalls codebase log1 + clientCalls codebase log2)%nat.
Proof.
  induction log1 as [| effect log1 IH]; [reflexivity |].
  destruct effect; cbn [app clientCalls]; rewrite IH; lia.
Qed.

Section Memoize.

Variable client : string -> RepoIdResult.
Variable codebase : string.

(** A result in the cache is returned without any effect. *)
Lemma getRepoId_hit (cache : RepoIdCache) (repoId : RepoIdResult) :
  cacheGet cache codebase = Some repoId ->
  getRepoId cache client codebase = (cache, repoId, []).
Proof.
  intros hit. unfold getRepoId. now rewrite hit.
Qed.

(** After a call the cache holds the result of the call. *)
Lemma getRepoId_stores (cache : RepoIdCache) :
  cacheGet (fst (fst (getRepoId cache client codebase))) codebase
  = Some (snd (fst (getRepoId cache client codebase))).
Proof.
  unfold getRepoId.
  destruct (cacheGet cache codebase) as [repoId |] eqn:hit.
  - exact hit.
  - destruct (getRepoId_uncached client codebase) as [repoId effects].
    cbn. now rewrite String.eqb_refl.
Qed.

(** A call keeps what the cache holds. *)
Lemma getRepoId_keeps (cache : RepoIdCache) (other : string)
    (repoId : RepoIdResult) :
  cacheGet cache other = Some repoId ->
  cacheGet (fst (fst (getRepoId cache client codebase))) other = Some repoId.
Proof.
  intros held. unfold getRepoId.
  destruct (cacheGet cache codebase) as [found |] eqn:hit.
  - exact held.
  - destruct (getRepoId_uncached client codebase) as [result effects].
    cbn. destruct (String.eqb_spec other codebase) as [-> | _].
    + congruence.
    + exact held.
Qed.

(** The client is asked by a call that misses the cache for a codebase
    that is not empty, and by no other call. *)
Lemma getRepoId_clientCalls (cache : RepoIdCache) (asked : string) :
  clientCalls asked (snd (getRepoId cache client codebase))
  = match cacheGet cache codebase with
    | Some _ => O
    | None =>
        if negb (String.eqb codebase "") && String.eqb codebase asked
        then 1%nat else O
    end.
Proof.
  unfold getRepoId, getRepoId_uncached.
  destruct (cacheGet cache codebase); [reflexivity |].
  destruct (String.eqb codebase ""); cbn [negb andb].
  - reflexivity.
  - destruct (isError (client codebase)); cbn [snd]; rewrite ?clientCalls_app;
      cbn; destruct (String.eqb codebase asked); reflexivity.
Qed.

End Memoize.

Lemma createCodebaseContext_parts (cache : RepoIdCache)
    (client : string -> RepoIdResult) (codebase : string)
    (contextType : UseContext) (serverEndpoint : string) :
  let result := createCodebaseContext cache client codebase contextType
                  serverEndpoint in
  let repoId := snd (fst (getRepoId cache client codebase)) in
  fst (fst result) = fst (fst (getRepoId cache client codebase))
  /\ snd result = snd (getRepoId cache client codebase)
  /\ (snd (fst result)).(CodebaseContext.codebase) = codebase
  /\ (snd (fst result)).(CodebaseContext.embeddingsSearch)
     = if truthyRepoId repoId && negb (isError repoId)
       then Some {| SourcegraphEmbeddingsSearchClient.codebase := codebase;
                    SourcegraphEmbeddingsSearchClient.repoId := repoId |}
       else None.
Proof.
  unfold createCodebaseContext.
  destruct (getRepoId cache client codebase) as [[cache' repoId] effects].
  repeat split.
Qed.

Lemma createCodebaseContexts_cons (cache : RepoIdCache)
    (request : CodebaseRequest.t) (requests : list CodebaseRequest.t) :
  let first :=
    createCodebaseContext cache
      request.(CodebaseRequest.client) request.(CodebaseRequest.codebase)
      request.(CodebaseRequest.contextType)
      request.(CodebaseRequest.serverEndpoint) in
  let rest := createCodebaseContexts (fst (fst first)) requests in
  createCodebaseContexts cache (request :: requests)
  = (fst (fst rest), snd (fst first) :: snd (fst rest),
     (snd first ++ snd rest)%list).
Proof.
  cbn [createCodebaseContexts]. cbv zeta.
  destruct (createCodebaseContext _ _ _ _ _) as [[cache' context] effects].
  cbn [fst snd].
  destruct (createCodebaseContexts cache' requests) as [[cache'' contexts] effects'].
  reflexivity.
Qed.

(** A sequence of calls keeps what the cache holds. *)
Lemma createCodebaseContexts_keeps (requests : list CodebaseRequest.t) :
  forall cache codebase repoId,
    cacheGet cache codebase = Some repoId ->
    cacheGet (fst (fst (createCodebaseContexts cache requests))) codebase
    = Some repoId.
Proof.
  induction requests as [| request requests IH]; intros cache codebase repoId held.
  - exact held.
  - rewrite createCodebaseContexts_cons. cbv zeta. cbn [fst snd].
    apply IH.
    destruct (createCodebaseContext_parts cache
                request.(CodebaseRequest.client)
                request.(CodebaseRequest.codebase)
                request.(CodebaseRequest.contextType)
                request.(CodebaseRequest.serverEndpoint)) as (-> & _).
    now apply getRepoId_keeps.
Qed.

(** Over a sequence of calls the client is asked at most once for a
    codebase, and not at all for one that the cache holds. *)
Lemma createCodebaseContexts_clientCalls (requests : list CodebaseRequest.t)
    (asked : string) :
  forall cache,
    let calls :=
      clientCalls asked (snd (createCodebaseContexts cache requests)) in
    (calls <= 1)%nat
    /\ (cacheGet cache asked <> None -> calls = O).
Proof.
  induction requests as [| request requests IH]; intros cache; cbv zeta.
  - cbn. split; [lia | reflexivity].
  - rewrite createCodebaseContexts_cons. cbv zeta. cbn [fst snd].
    rewrite clientCalls_app.
    destruct (createCodebaseContext_parts cache
                request.(CodebaseRequest.client)
                request.(CodebaseRequest.codebase)
                request.(CodebaseRequest.contextType)
                request.(CodebaseRequest.serverEndpoint))
      as (-> & -> & _).
    rewrite getRepoId_clientCalls.
    destruct (IH (fst (fst (getRepoId cache request.(CodebaseRequest.client)
                              request.(CodebaseRequest.codebase)))))
      as (once & none).
    cbv zeta in once, none.
    destruct (cacheGet cache request.(CodebaseRequest.codebase)) as [found |] eqn:hit.
    + split; [lia |]. intros held. apply none.
      destruct (cacheGet cache asked) as [repoId |] eqn:was; [| contradiction].
      rewrite (getRepoId_keeps _ _ _ _ _ was). discriminate.
    + destruct (String.eqb_spec request.(CodebaseRequest.codebase) asked)
        as [same | different].
      * rewrite none.
        -- split; [destruct (negb _); cbn; lia |].
           intros held. rewrite <- same in held. contradiction.
        -- rewrite <- same, getRepoId_stores. discriminate.
      * rewrite andb_false_r. split; [lia |].
        intros held. apply none.
        destruct (cacheGet cache asked) as [repoId |] eqn:was; [| contradiction].
        rewrite (getRepoId_keeps _ _ _ _ _ was). discriminate.
Qed.

(** X16. Over every sequence of calls of [createCodebaseContext] that
    starts with an empty cache, the Sourcegraph client is asked at most
    once for the identifier of a codebase, whatever it answers. *)
Theorem client_asked_at_most_once (requests : list CodebaseRequest.t)
    (codebase : string) :
  (clientCalls codebase (snd (createCodebaseContexts [] requests)) <= 1)%nat.
Proof.
  apply (createCodebaseContexts_clientCalls requests codebase []).
Qed.

(** A later call for a codebase finds the result of the first one. *)
Lemma lookup_remembered (cache : RepoIdCache)
    (client client' : string -> RepoIdResult) (codebase : string)
    (contextType contextType' : UseContext)
    (serverEndpoint serverEndpoint' : string)
    (between : list CodebaseRequest.t) :
  let first :=
    createCodebaseContext cache client codebase contextType serverEndpoint in
  let others := createCodebaseContexts (fst (fst first)) between in
  let again :=
    createCodebaseContext (fst (fst others)) client' codebase contextType'
      serverEndpoint' in
  snd again = []
  /\ (snd (fst again)).(CodebaseContext.embeddingsSearch)
     = (snd (fst first)).(CodebaseContext.embeddingsSearch).
Proof.
  cbv zeta.
  destruct (createCodebaseContext_parts cache client codebase contextType
              serverEndpoint) as (cache1 & _ & _ & search1).
  rewrite cache1, search1.
  pose proof (createCodebaseContexts_keeps between _ _ _
                (getRepoId_stores client codebase cache)) as held.
  set (cache2 := fst (fst (createCodebaseContexts _ between))) in *.
  destruct (createCodebaseContext_parts cache2 client' codebase contextType'
              serverEndpoint') as (_ & effects & _ & search2).
  rewrite effects, search2, (getRepoId_hit client' codebase cache2 _ held).
  split; reflexivity.
Qed.

(** X17. After a call of [createCodebaseContext] for a codebase, every
    later call for that codebase, after any calls in between and whatever
    the client would answer by then, has no effect and returns the same
    embeddings search as the first. *)
Theorem repeated_lookup_is_remembered (cache : RepoIdCache)
    (client client' : string -> RepoIdResult) (codebase : string)
    (contextType contextType' : UseContext)
    (serverEndpoint serverEndpoint' : string)
    (between : list CodebaseRequest.t) :
  let first :=
    createCodebaseContext cache client codebase contextType serverEndpoint in
  let others := createCodebaseContexts (fst (fst first)) between in
  let again :=
    createCodebaseContext (fst (fst others)) client' codebase contextType'
      serverEndpoint' in
  snd again = []
  /\ (snd (fst again)).(CodebaseContext.embeddingsSearch)
     = (snd (fst first)).(CodebaseContext.embeddingsSearch).
Proof.
  apply lookup_remembered.
Qed.

Lemma getRepoId_emptyCodebaseNull (cache : RepoIdCache)
    (client : string -> RepoIdResult) (codebase : string) :
  emptyCodebaseNull cache ->
  emptyCodebaseNull (fst (fst (getRepoId cache client codebase)))
  /\ (codebase = "" -> snd (fst (getRepoId cache client codebase)) = repoIdNull).
Proof.
  intros inv. unfold getRepoId.
  destruct (cacheGet cache codebase) as [found |] eqn:hit.
  - split; [exact inv |]. intros ->. now apply inv.
  - unfold getRepoId_uncached.
    destruct (String.eqb_spec codebase "") as [-> | nonempty]; cbn [negb].
    + cbn. split; [| reflexivity]. intros repoId. cbn. congruence.
    + split; [| contradiction].
      destruct (isError (client codebase)); cbn [fst snd];
        intros repoId; cbn [cacheGet];
        (destruct (String.eqb_spec "" codebase) as [e | _];
         [symmetry in e; contradiction | apply inv]).
Qed.

Lemma createCodebaseContexts_searches (requests : list CodebaseRequest.t) :
  forall cache,
    emptyCodebaseNull cache ->
    Forall searchOfFoundRepository
      (snd (fst (createCodebaseContexts cache requests)))
    /\ clientCalls "" (snd (createCodebaseContexts cache requests)) = O.
Proof.
  induction requests as [| request requests IH]; intros cache inv.
  - cbn. split; [constructor | reflexivity].
  - rewrite createCodebaseContexts_cons. cbv zeta. cbn [fst snd].
    rewrite clientCalls_app.
    destruct (createCodebaseContext_parts cache
                request.(CodebaseRequest.client)
                request.(CodebaseRequest.codebase)
                request.(CodebaseRequest.contextType)
                request.(CodebaseRequest.serverEndpoint))
      as (cache' & effects & name & search).
    cbv zeta in search.
    destruct (getRepoId_emptyCodebaseNull cache
                request.(CodebaseRequest.client)
                request.(CodebaseRequest.codebase) inv) as (inv' & null).
    rewrite cache', effects.
    destruct (IH _ inv') as (searches & none).
    rewrite none, getRepoId_clientCalls.
    split.
    + constructor; [| exact searches].
      unfold searchOfFoundRepository. rewrite search, name.
      destruct (snd (fst (getRepoId cache _ _))) as [| message | id] eqn:result;
        cbn; try exact I.
      destruct (String.eqb_spec id "") as [-> | nonempty]; cbn; [exact I |].
      repeat split.
      * intros empty. specialize (null empty). discriminate.
      * exists id. auto.
    + destruct (cacheGet cache _); [reflexivity |].
      destruct (String.eqb request.(CodebaseRequest.codebase) ""); reflexivity.
Qed.

(** X18. Over every sequence of calls of [createCodebaseContext] that
    starts with an empty cache, a context has an embeddings search only
    for a codebase that is not empty and whose lookup gave an identifier
    that is not empty, and the search is for that codebase and that
    identifier; the client is never asked for the empty codebase. *)
Theorem embeddings_search_of_found_repository
    (requests : list CodebaseRequest.t) :
  Forall searchOfFoundRepository
    (snd (fst (createCodebaseContexts [] requests)))
  /\ clientCalls "" (snd (createCodebaseContexts [] requests)) = O.
Proof.
  apply createCodebaseContexts_searches. intros repoId. discriminate.
Qed.

(** X19. When the client answers the first lookup of a codebase with an
    error, the call asks the client once, writes one error that names the
    codebase to the console and returns a context without embeddings
    search; every later call for that codebase, whatever the client would
    answer by then, does nothing of the three and returns no embeddings
    search either. *)
Theorem failed_lookup_is_final (cache : RepoIdCache)
    (client client' : string -> RepoIdResult) (codebase message : string)
    (contextType contextType' : UseContext)
    (serverEndpoint serverEndpoint' : string)
    (between : list CodebaseRequest.t) :
  cacheGet cache codebase = None ->
  codebase <> "" ->
  client codebase = repoIdError message ->
  let first :=
    createCodebaseContext cache client codebase contextType serverEndpoint in
  let others := createCodebaseContexts (fst (fst first)) between in
  let again :=
    createCodebaseContext (fst (fst others)) client' codebase contextType'
      serverEndpoint' in
  snd first
  = [ sourcegraphClient_getRepoId codebase;
      console_error
        ("Cody could not find the '" ++ codebase
           ++ "' repository on your Sourcegraph instance." ++ LF
           ++ "Please check that the repository exists and is entered "
           ++ "correctly in the cody.codebase setting.") ]
  /\ (snd (fst first)).(CodebaseContext.embeddingsSearch) = None
  /\ snd again = []
  /\ (snd (fst again)).(CodebaseContext.embeddingsSearch) = None.
Proof.
  intros miss nonempty failed. cbv zeta.
  destruct (lookup_remembered cache client client' codebase contextType
              contextType' serverEndpoint serverEndpoint' between)
    as (silent & same).
  cbv zeta in silent, same. rewrite silent, same.
  unfold createCodebaseContext, getRepoId, getRepoId_uncached.
  rewrite miss, failed.
  destruct (String.eqb_spec codebase "") as [empty | _]; [contradiction |].
  cbn. repeat split.
Qed.

Lemma failed_lookup_is_final_witness :
  snd (createCodebaseContext [] Scenario.clientFails "github.com/a/b"
         useEmbeddings "https://sourcegraph.com")
  = [ sourcegraphClient_getRepoId "github.com/a/b";
      console_error
        ("Cody could not find the 'github.com/a/b' repository on your "
           ++ "Sourcegraph instance." ++ LF
           ++ "Please check that the repository exists and is entered "
           ++ "correctly in the cody.codebase setting.") ]
  /\ snd (createCodebaseContext
            (fst (fst (createCodebaseContext [] Scenario.clientFails
                         "github.com/a/b" useEmbeddings
                         "https://sourcegraph.com")))
            (Scenario.clientFinds "UmVwb3NpdG9yeTox") "github.com/a/b"
            useEmbeddings "https://sourcegraph.com")
     = []
  /\ (snd (fst (createCodebaseContext
                  (fst (fst (createCodebaseContext [] Scenario.clientFails
                               "github.com/a/b" useEmbeddings
                               "https://sourcegraph.com")))
                  (Scenario.clientFinds "UmVwb3NpdG9yeTox") "github.com/a/b"
                  useEmbeddings "https://sourcegraph.com")))
       .(CodebaseContext.embeddingsSearch) = None.
Proof.
  destruct (failed_lookup_is_final [] Scenario.clientFails
              (Scenario.clientFinds "UmVwb3NpdG9yeTox") "github.com/a/b"
              "repository not found" useEmbeddings useEmbeddings
              "https://sourcegraph.com" "https://sourcegraph.com" []
              eq_refl ltac:(discriminate) eq_refl)
    as (logged & _ & silent & none).
  split; [exact logged | split; [exact silent | exact none]].
Defined.

(** ** The question of an input *)

Lemma trimStart_length (s : string) :
  (String.length (JSString.trimStart s) <= String.length s)%nat.
Proof.
  induction s as [| c s IH]; cbn [JSString.trimStart]; [lia |].
  destruct (JS.isWhiteSpace c); cbn [String.length]; lia.
Qed.

(** A string that [trimStart] keeps does not start with white space. *)
Lemma trimStart_kept (c : ascii) (s : string) :
  JSString.trimStart (String c s) = String c s -> JS.isWhiteSpace c = false.
Proof.
  cbn [JSString.trimStart]. destruct (JS.isWhiteSpace c); [| reflexivity].
  intros kept. pose proof (trimStart_length s) as shorter.
  rewrite kept in shorter. cbn [String.length] in shorter. lia.
Qed.

Lemma trimStart_idempotent (s : string) :
  JSString.trimStart (JSString.trimStart s) = JSString.trimStart s.
Proof.
  induction s as [| c s IH]; [reflexivity |].
  cbn [JSString.trimStart]. destruct (JS.isWhiteSpace c) eqn:space; [exact IH |].
  cbn [JSString.trimStart]. now rewrite space.
Qed.

(** A text that ends with a question mark has no white space at its
    end. *)
Lemma trimEnd_question (a : string) : JS.trimEnd (a ++ "?") = a ++ "?".
Proof.
  induction a as [| c a IH]; [reflexivity |].
  change ((String c a ++ "?")%string) with (String c (a ++ "?")).
  cbn [JS.trimEnd]. rewrite IH.
  destruct a; reflexivity.
Qed.

Lemma trim_up_to_question (a b : string) :
  JSString.trimStart (a ++ "?" ++ b) = a ++ "?" ++ b ->
  JSString.trim (a ++ "?") = a ++ "?".
Proof.
  intros kept. unfold JSString.trim. rewrite trimEnd_question.
  destruct a as [| c a]; [reflexivity |].
  change ((String c a ++ "?" ++ b)%string) with (String c (a ++ "?" ++ b)) in kept.
  apply trimStart_kept in kept.
  change ((String c a ++ "?")%string) with (String c (a ++ "?")).
  cbn [JSString.trimStart]. now rewrite kept.
Qed.

Lemma slice2_prefix (a x : string) :
  JSString.slice2 (a ++ x) 0 (Z.of_nat (String.length a)) = a.
Proof.
  unfold JSString.slice2, JS.length. rewrite string_length_app.
  cbn [Z.ltb Z.compare].
  destruct (Z.ltb_spec (Z.of_nat (String.length a)) 0) as [neg | _]; [lia |].
  rewrite !Z.min_l by lia. rewrite Z.sub_0_r, Z.max_l by lia.
  rewrite Nat2Z.id. apply substring_prefix.
Qed.

Lemma substring_one_get (s : string) :
  forall i c, String.substring i 1 s = String c "" -> String.get i s = Some c.
Proof.
  induction s as [| x s IH]; intros [| i] c; cbn; try discriminate.
  - destruct s; intros [= ->]; reflexivity.
  - apply IH.
Qed.

Lemma question_absent (s : string) :
  noQuestionMark s -> String.index 0 "?" s = None.
Proof.
  intros absent.
  destruct (String.index 0 "?" s) as [m |] eqn:found; [| reflexivity].
  exfalso. apply (absent m).
  apply substring_one_get. exact (index_correct1 _ _ _ _ found).
Qed.

Lemma question_first (a b : string) :
  noQuestionMark a ->
  String.index 0 "?" (a ++ "?" ++ b) = Some (String.length a).
Proof.
  intros absent. apply index_first_occurrence; [discriminate |].
  intros i before occurs. apply (absent i).
  rewrite (append_correct1 a ("?" ++ b) i before).
  apply substring_one_get. exact occurs.
Qed.

(** X20. [extractQuestion] trims its input. When the trimmed input has a
    question mark, the result is the trimmed input up to its first
    question mark, the mark included; when it has none, the result is the
    trimmed input if that is shorter than 100 characters, and there is no
    result otherwise. *)
Theorem extractQuestion_spec (input : string) :
  (forall a b,
      JSString.trim input = a ++ "?" ++ b -> noQuestionMark a ->
      extractQuestion input = Some (a ++ "?"))
  /\ (noQuestionMark (JSString.trim input) ->
      extractQuestion input
      = if JS.length (JSString.trim input) <? 100
        then Some (JSString.trim input) else None).
Proof.
  split.
  - intros a b trimmed absent. unfold extractQuestion, JS.indexOf. cbv zeta.
    rewrite trimmed, question_first by assumption.
    destruct (Z.eqb_spec (Z.of_nat (String.length a)) (-1)) as [e | _]; [lia |].
    cbn [negb]. f_equal.
    replace (a ++ "?" ++ b) with ((a ++ "?") ++ b)
      by apply string_app_assoc.
    replace (Z.of_nat (String.length a) + 1)
      with (Z.of_nat (String.length (a ++ "?")))
      by (rewrite string_length_app; cbn; lia).
    rewrite slice2_prefix.
    apply (trim_up_to_question a b).
    rewrite <- trimmed. apply trimStart_idempotent.
  - intros absent. unfold extractQuestion, JS.indexOf. cbv zeta.
    rewrite question_absent by assumption. reflexivity.
Qed.

Lemma extractQuestion_spec_witness :
  extractQuestion "  what is this? and that?  " = Some "what is this?"
  /\ extractQuestion "  hello world  " = Some "hello world".
Proof.
  split.
  - apply (proj1 (extractQuestion_spec "  what is this? and that?  ")
             "what is this" " and that?").
    + reflexivity.
    + intros i. do 13 (destruct i as [| i]; [discriminate |]). discriminate.
  - apply (proj2 (extractQuestion_spec "  hello world  ")).
    intros i. do 12 (destruct i as [| i]; [discriminate |]). discriminate.
Defined.

(** ** The context window of a chat model *)

(** X21. For an endpoint that is not empty and not the public one, the
    context window does not depend on the model: it is four times the
    configured prompt limit when that is set and not zero, else four times
    the token limit of the instance when that is set and not zero, else
    28000, and it is never zero. For the public endpoint or without one,
    the configured limits are not read: the window is 10000 for a model
    whose identifier ends with "openai/gpt-3.5-turbo" and does not hold
    "openai/gpt-4-1106-preview", and 28000 for every other model. *)
Theorem getContextWindowForModel_spec (isDotCom : string -> bool)
    (tokenLimit : option Z) (authStatus : AuthStatus.t) (modelID : string) :
  let window := getContextWindowForModel isDotCom tokenLimit authStatus modelID in
  (forall endpoint,
      authStatus.(AuthStatus.endpoint) = Some endpoint ->
      endpoint <> "" -> isDotCom endpoint = false ->
      window <> 0
      /\ (forall modelID',
            getContextWindowForModel isDotCom tokenLimit authStatus modelID'
            = window)
      /\ (forall limit, tokenLimit = Some limit -> limit <> 0 ->
            window = limit * 4)
      /\ (tokenLimit = None \/ tokenLimit = Some 0 ->
          (forall maxTokens,
              chatModelMaxTokens authStatus = Some maxTokens -> maxTokens <> 0 ->
              window = maxTokens * 4)
          /\ (chatModelMaxTokens authStatus = None
              \/ chatModelMaxTokens authStatus = Some 0 ->
              window = 28000)))
  /\ (authStatus.(AuthStatus.endpoint) = None
      \/ authStatus.(AuthStatus.endpoint) = Some ""
      \/ (exists endpoint,
            authStatus.(AuthStatus.endpoint) = Some endpoint
            /\ isDotCom endpoint = true) ->
      window
      = if negb (JSString.includes modelID "openai/gpt-4-1106-preview")
           && JS.endsWith modelID "openai/gpt-3.5-turbo"
        then 10000 else 28000).
Proof.
  cbv zeta. unfold getContextWindowForModel. split.
  - intros endpoint -> nonempty private.
    apply String.eqb_neq in nonempty. rewrite nonempty, private. cbn [negb andb].
    unfold JS.truthy, numberOf.
    split; [| split; [reflexivity | split]].
    + destruct tokenLimit as [limit |];
        [destruct (Z.eqb_spec limit 0); cbn [negb]; [| lia] |];
        (destruct (chatModelMaxTokens authStatus) as [maxTokens |];
         [destruct (Z.eqb_spec maxTokens 0); cbn [negb]; lia | lia]).
    + intros limit -> nonzero. apply Z.eqb_neq in nonzero. now rewrite nonzero.
    + intros unset.
      assert (falsy : match tokenLimit with
                      | Some v => negb (v =? 0)
                      | None => false
                      end = false)
        by (destruct unset as [-> | ->]; reflexivity).
      rewrite falsy. split.
      * intros maxTokens -> nonzero. apply Z.eqb_neq in nonzero.
        now rewrite nonzero.
      * intros [-> | ->]; reflexivity.
  - intros public.
    assert (enterprise :
              match authStatus.(AuthStatus.endpoint) with
              | Some endpoint =>
                  negb (String.eqb endpoint "") && negb (isDotCom endpoint)
              | None => false
              end = false).
    { destruct public as [-> | [-> | (endpoint & -> & public)]];
        try reflexivity.
      rewrite public. now rewrite andb_false_r. }
    rewrite enterprise.
    destruct (JSString.includes modelID "openai/gpt-4-1106-preview");
      cbn [negb andb]; [reflexivity |].
    destruct (JS.endsWith modelID "openai/gpt-3.5-turbo"); [reflexivity |].
    destruct (_ && _); reflexivity.
Qed.

Lemma getContextWindowForModel_spec_witness :
  getContextWindowForModel Scenario.isDotCom (Some 2000) Scenario.enterpriseUser
    "openai/gpt-3.5-turbo"
  = 2000 * 4
  /\ getContextWindowForModel Scenario.isDotCom (Some 2000) Scenario.dotComUser
       "openai/gpt-3.5-turbo"
     = 10000.
Proof.
  split.
  - destruct (proj1 (getContextWindowForModel_spec Scenario.isDotCom (Some 2000)
                       Scenario.enterpriseUser "openai/gpt-3.5-turbo")
                "https://sourcegraph.example.org" eq_refl
                ltac:(discriminate) eq_refl)
      as (_ & _ & limited & _).
    apply (limited 2000 eq_refl). discriminate.
  - apply (proj2 (getContextWindowForModel_spec Scenario.isDotCom (Some 2000)
                    Scenario.dotComUser "openai/gpt-3.5-turbo")).
    right. right. exists "https://sourcegraph.com". split; reflexivity.
Defined.

(** ** The test of the timeout *)

(** [generateCompletions] is its second half at the parameters that its
    first half resolves. *)
Lemma generateCompletions_staged (E : Collaborators)
    (this : FireworksProvider.t) (snippets : list ContextSnippet.t)
    (tracer : bool) :
  generateCompletions E this snippets tracer
  = generateCompletions_from this tracer (resolvedRequestParams E this snippets).
Proof. reflexivity. Qed.

Lemma generateCompletions_log_staged (E : Collaborators)
    (this : FireworksProvider.t) (snippets : list ContextSnippet.t)
    (tracer : bool) (arrivals : list InlineCompletionItemWithAnalytics.t) :
  generateCompletions_log E this snippets tracer arrivals
  = generateCompletions_log_from this tracer
      (resolvedRequestParams E this snippets) arrivals.
Proof. reflexivity. Qed.

Lemma zero_timeout_from (this : FireworksProvider.t) (tracer : bool)
    (requestParams : CodeCompletionsParams.t)
    (arrivals : list InlineCompletionItemWithAnalytics.t) :
  requestParams.(CodeCompletionsParams.timeoutMs) = 0 ->
  generateCompletions_from this tracer requestParams
  = ([onCompletionReady []], Returned)
  /\ generateCompletions_log_from this tracer requestParams arrivals
     = [onCompletionReady []].
Proof.
  intros zero. unfold generateCompletions_log_from, generateCompletions_from.
  rewrite zero. split; reflexivity.
Qed.



(** The same for a whole invocation: if the timeout that the first half
    resolves is zero, the log is the one call of [onCompletionReady] with
    the empty list.  No provider resolves a timeout of zero as the code
    stands (see [resolved_timeout_nonzero]): the presets are not zero, and
    a custom timeout of zero is not applied. *)
Corollary generateCompletions_zero_timeout (E : Collaborators)
    (this : FireworksProvider.t) (snippets : list ContextSnippet.t)
    (tracer : bool) (arrivals : list InlineCompletionItemWithAnalytics.t) :
  (resolvedRequestParams E this snippets).(CodeCompletionsParams.timeoutMs) = 0 ->
  generateCompletions_log E this snippets tracer arrivals = [onCompletionReady []].
Proof.
  intros zero. rewrite generateCompletions_log_staged.
  now apply zero_timeout_from.
Qed.

(** ** The suffix in the prompt *)

(** The claim of C9 fails for the Mistral instruct model: the suffix is
    "abc\ndef", its part from the first line break on is "\ndef", and the
    prompt holds the whole suffix after the closing code tag. *)
Lemma mistral_prompt_keeps_whole_suffix :
  docSuffix Scenario.mistralSuffix = "abc" ++ LF ++ "def"
  /\ getSuffixAfterFirstNewline (docSuffix Scenario.mistralSuffix) = LF ++ "def"
  /\ createPrompt Sample.collaborators Scenario.mistralSuffix []
     = "<s>[INST] Below is the code from file path src/a.ts"
         ++ ". Review the code outside the XML tags to detect the "
         ++ "functionality, formats, style, patterns, and logics in use. "
         ++ "Then, use what you detect and reuse methods/libraries to "
         ++ "complete and enclose completed code only inside XML tags "
         ++ "precisely without duplicating existing implementations. "
         ++ "Here is the code:" ++ LF
         ++ "```" ++ LF
         ++ "# Path: src/a.ts" ++ LF
         ++ "<CODE5711></CODE5711>"
         ++ ("abc" ++ LF ++ "def") ++ LF
         ++ "```[/INST]" ++ LF
         ++ " <CODE5711>let a = "
  /\ createPrompt Sample.collaborators Scenario.mistralSuffix []
     <> "<s>[INST] Below is the code from file path src/a.ts"
          ++ ". Review the code outside the XML tags to detect the "
          ++ "functionality, formats, style, patterns, and logics in use. "
          ++ "Then, use what you detect and reuse methods/libraries to "
          ++ "complete and enclose completed code only inside XML tags "
          ++ "precisely without duplicating existing implementations. "
          ++ "Here is the code:" ++ LF
          ++ "```" ++ LF
          ++ "# Path: src/a.ts" ++ LF
          ++ "<CODE5711></CODE5711>"
          ++ (LF ++ "def") ++ LF
          ++ "```[/INST]" ++ LF
          ++ " <CODE5711>let a = ".
Proof.
  repeat split; try (vm_compute; reflexivity). vm_compute. discriminate.
Qed.

(** C9, as the code has it. For every suffix, the suffix that a prompt of
    the StarCoder or the Llama Code format retains is exactly the part of
    the original suffix that starts at its first line break, the line
    break included, and is the empty string when the suffix has no line
    break; the suffix "abc\ndef" yields "\ndef". A prompt of the Mistral
    instruct format holds the whole original suffix, and a prompt of a
    model without infilling format holds no suffix. *)
Theorem suffix_in_prompt (E : Collaborators) (this : FireworksProvider.t)
    (snippets : list ContextSnippet.t) :
  let model := this.(FireworksProvider.model) in
  let suffix := docSuffix this in
  let retained := getSuffixAfterFirstNewline suffix in
  let prompt := createPrompt E this snippets in
  (forall a b, suffix = a ++ LF ++ b -> noLineBreak a -> retained = LF ++ b)
  /\ (noLineBreak suffix -> retained = "")
  /\ getSuffixAfterFirstNewline ("abc" ++ LF ++ "def") = LF ++ "def"
  /\ (isStarCoderFamily model = true ->
      prompt = ""
      \/ exists intro,
           prompt
           = "<filename>" ++ asRelativePath E (fileName this) ++ "<fim_prefix>"
               ++ intro ++ docPrefix this ++ "<fim_suffix>" ++ retained
               ++ "<fim_middle>")
  /\ (isStarCoderFamily model = false -> isLlamaCode model = true ->
      prompt = ""
      \/ exists intro,
           prompt
           = "<PRE> " ++ intro ++ docPrefix this ++ " <SUF>" ++ retained
               ++ " <MID>")
  /\ (model = "mistral-7b-instruct-4k" ->
      prompt = ""
      \/ exists intro infillPrefix infillBlock,
           prompt
           = "<s>[INST] Below is the code from file path "
               ++ asRelativePath E (fileName this)
               ++ ". Review the code outside the XML tags to detect the "
               ++ "functionality, formats, style, patterns, and logics in use. "
               ++ "Then, use what you detect and reuse methods/libraries to "
               ++ "complete and enclose completed code only inside XML tags "
               ++ "precisely without duplicating existing implementations. "
               ++ "Here is the code:" ++ LF
               ++ "```" ++ LF
               ++ intro ++ infillPrefix ++ OPENING_CODE_TAG E
               ++ CLOSING_CODE_TAG E ++ suffix ++ LF
               ++ "```[/INST]" ++ LF
               ++ " " ++ OPENING_CODE_TAG E ++ infillBlock)
  /\ (isStarCoderFamily model = false -> isLlamaCode model = false ->
      model <> "mistral-7b-instruct-4k" ->
      prompt = "" \/ exists intro, prompt = intro ++ docPrefix this).
Proof.
  cbv zeta.
  split; [| split; [| split]].
  - intros a b -> none. now apply getSuffixAfterFirstNewline_at_break.
  - apply getSuffixAfterFirstNewline_no_break.
  - apply (getSuffixAfterFirstNewline_at_break "abc" "def").
    intros i. do 4 (destruct i as [| i]; [discriminate |]). discriminate.
  - unfold createPrompt.
    destruct (createPrompt_loop_result E this (None :: map Some snippets)
                (initialIntro this) "") as [-> | [intro ->]].
    + repeat split; intros; left; reflexivity.
    + unfold nextPrompt, createInfillingPrompt. cbv zeta.
      split; [| split; [| split]].
      * intros ->. right. eexists. reflexivity.
      * intros -> ->. right. eexists. reflexivity.
      * intros ->.
        change (isStarCoderFamily "mistral-7b-instruct-4k") with false.
        change (isLlamaCode "mistral-7b-instruct-4k") with false.
        change (String.eqb "mistral-7b-instruct-4k" "mistral-7b-instruct-4k")
          with true.
        cbv iota. right. do 3 eexists. reflexivity.
      * intros -> -> other. apply String.eqb_neq in other. rewrite other.
        right. eexists. reflexivity.
Qed.

Lemma suffix_in_prompt_witness :
  getSuffixAfterFirstNewline (docSuffix Scenario.starcoderSuffix) = LF ++ "def"
  /\ getSuffixAfterFirstNewline (docSuffix Sample.withinBudget) = ""
  /\ (createPrompt Sample.collaborators Scenario.starcoderSuffix [] = ""
      \/ exists intro,
           createPrompt Sample.collaborators Scenario.starcoderSuffix []
           = "<filename>src/a.ts<fim_prefix>" ++ intro ++ "let a = "
               ++ "<fim_suffix>"
               ++ getSuffixAfterFirstNewline ("abc" ++ LF ++ "def")
               ++ "<fim_middle>")
  /\ (createPrompt Sample.collaborators Scenario.llamaSuffix [] = ""
      \/ exists intro,
           createPrompt Sample.collaborators Scenario.llamaSuffix []
           = "<PRE> " ++ intro ++ "let a = " ++ " <SUF>"
               ++ getSuffixAfterFirstNewline ("abc" ++ LF ++ "def")
               ++ " <MID>")
  /\ (createPrompt Sample.collaborators Scenario.mistralSuffix [] = ""
      \/ exists intro infillPrefix infillBlock,
           createPrompt Sample.collaborators Scenario.mistralSuffix []
           = "<s>[INST] Below is the code from file path src/a.ts"
               ++ ". Review the code outside the XML tags to detect the "
               ++ "functionality, formats, style, patterns, and logics in use. "
               ++ "Then, use what you detect and reuse methods/libraries to "
               ++ "complete and enclose completed code only inside XML tags "
               ++ "precisely without duplicating existing implementations. "
               ++ "Here is the code:" ++ LF
               ++ "```" ++ LF
               ++ intro ++ infillPrefix ++ "<CODE5711>"
               ++ "</CODE5711>" ++ ("abc" ++ LF ++ "def") ++ LF
               ++ "```[/INST]" ++ LF
               ++ " " ++ "<CODE5711>" ++ infillBlock)
  /\ (createPrompt Sample.collaborators Scenario.otherModelSuffix [] = ""
      \/ exists intro,
           createPrompt Sample.collaborators Scenario.otherModelSuffix []
           = intro ++ "let a = ").
Proof.
  pose proof (suffix_in_prompt Sample.collaborators Scenario.starcoderSuffix [])
    as starcoder.
  pose proof (suffix_in_prompt Sample.collaborators Sample.withinBudget [])
    as plain.
  pose proof (suffix_in_prompt Sample.collaborators Scenario.llamaSuffix [])
    as llama.
  pose proof (suffix_in_prompt Sample.collaborators Scenario.mistralSuffix [])
    as mistral.
  pose proof (suffix_in_prompt Sample.collaborators Scenario.otherModelSuffix [])
    as other.
  cbv zeta in starcoder, plain, llama, mistral, other.
  destruct starcoder as (atBreak & _ & _ & fim & _).
  destruct plain as (_ & noBreak & _).
  destruct llama as (_ & _ & _ & _ & pre & _).
  destruct mistral as (_ & _ & _ & _ & _ & inst & _).
  destruct other as (_ & _ & _ & _ & _ & _ & raw).
  split; [| split; [| split; [| split; [| split]]]].
  - apply (atBreak "abc" "def" eq_refl).
    intros i. do 4 (destruct i as [| i]; [discriminate |]). discriminate.
  - apply noBreak. intros [| i]; discriminate.
  - exact (fim eq_refl).
  - exact (pre eq_refl eq_refl).
  - exact (inst eq_refl).
  - apply (raw eq_refl eq_refl). discriminate.
Defined.
